(** * ddupload: the drag-and-drop upload widget and its PHP endpoint

    A shallow embedding of [upload.php] (the endpoint) and [ddupload.js]
    (the widget), followed by the properties of the two programs.

    Strings are byte strings ([string], a list of [ascii]), as PHP has
    them; the characters the code inspects ([/], [.], [<], ...) are all
    ASCII.  Integers are [Z]. *)

From stdpp Require Import base strings list gmap pretty.
From Stdlib Require Import ZArith Ascii.

Set Default Proof Using "Type".
Local Open Scope Z_scope.

(** ** Strings and lists of characters *)

Module Str.

Definition chars (s : string) : list ascii := String.list_ascii_of_string s.
Definition of_chars (l : list ascii) : string := String.string_of_list_ascii l.

Fixpoint take_while {A} (p : A → bool) (l : list A) : list A :=
  match l with
  | [] => []
  | x :: l' => if p x then x :: take_while p l' else []
  end.

Fixpoint drop_while {A} (p : A → bool) (l : list A) : list A :=
  match l with
  | [] => []
  | x :: l' => if p x then drop_while p l' else l
  end.

(** The pieces of [s] between the occurrences of [sep]; there is
    always at least one piece. *)
Fixpoint split (sep : ascii) (s : string) : list string :=
  match s with
  | EmptyString => [EmptyString]
  | String c s' =>
    if Ascii.eqb c sep then EmptyString :: split sep s'
    else match split sep s' with
         | piece :: pieces => String c piece :: pieces
         | [] => [String c EmptyString]
         end
  end.

End Str.

(** ** The PHP built-ins used by [upload.php] *)

Module Php.

Import Str.

(** The directory separator of a POSIX build ([IS_SLASH]). *)
Definition is_slash (c : ascii) : bool := Ascii.eqb c "/".
Definition is_dot (c : ascii) : bool := Ascii.eqb c ".".

(** [basename($path)]: trailing slashes are stripped, then the name
    runs back to the previous slash (or to the start). *)
Definition basename (path : string) : string :=
  let basename_end := drop_while is_slash (reverse (chars path)) in
  of_chars (reverse (take_while (λ c, negb (is_slash c)) basename_end)).

(** [dirname($path)], as [pathinfo] computes its "dirname" entry. *)
Definition dirname (path : string) : string :=
  match chars path with
  | [] => ""
  | _ =>
    match drop_while is_slash (reverse (chars path)) with
    | [] => "/"
    | stripped =>
      match drop_while (λ c, negb (is_slash c)) stripped with
      | [] => "."
      | parent =>
        match drop_while is_slash parent with
        | [] => "/"
        | dir => of_chars (reverse dir)
        end
      end
    end
  end.

(** A name cut at its last dot: [(filename, extension)], or [None]
    when the name has no dot ([zend_memrchr] finds nothing). *)
Fixpoint split_last_dot (s : string) : option (string * string) :=
  match s with
  | EmptyString => None
  | String c s' =>
    match split_last_dot s' with
    | Some (stem, ext) => Some (String c stem, ext)
    | None => if is_dot c then Some (EmptyString, s') else None
    end
  end.

(** [pathinfo($path)] with all options: the "extension" key is present
    only when the base name contains a dot, "dirname" only when it is
    not empty. *)
Definition pathinfo (path : string) : gmap string string :=
  let base := basename path in
  let with_dir : gmap string string :=
    if decide (dirname path = "") then ∅ else {[ "dirname" := dirname path ]} in
  let with_base := <[ "basename" := base ]> with_dir in
  match split_last_dot base with
  | Some (stem, ext) => <[ "filename" := stem ]> (<[ "extension" := ext ]> with_base)
  | None => <[ "filename" := base ]> with_base
  end.

(** [pathinfo($path, PATHINFO_EXTENSION)]: the empty string when the
    base name has no dot. *)
Definition pathinfo_extension (path : string) : string :=
  match split_last_dot (basename path) with
  | Some (_, ext) => ext
  | None => ""
  end.

(** [pathinfo($path, PATHINFO_FILENAME)]. *)
Definition pathinfo_filename (path : string) : string :=
  match split_last_dot (basename path) with
  | Some (stem, _) => stem
  | None => basename path
  end.

(** [empty($s)] on a string: the empty string and ["0"] are empty. *)
Definition empty (s : string) : bool :=
  bool_decide (s = "") || bool_decide (s = "0").

(** A value that may be [null] (here [None]), converted to a string as
    the [.] operator does: [null] becomes the empty string. *)
Definition strval (v : option string) : string := default "" v.

(** [$a !== $b] for a string [$a] and a possibly-null [$b]. *)
Definition not_identical (a : string) (b : option string) : bool :=
  negb (bool_decide (Some a = b)).

(** [in_array($needle, $haystack)] for strings.  The comparison is
    loose, which on two strings differs from equality only when both
    are numeric; the haystack of [upload.php] holds no numeric string. *)
Definition in_array (needle : string) (haystack : list string) : bool :=
  bool_decide (needle ∈ haystack).

(** The double quote character (code 34). *)
Definition double_quote : ascii := ascii_of_nat 34.

(** [htmlspecialchars($s)] with the default flags
    ([ENT_QUOTES | ENT_SUBSTITUTE | ENT_HTML401]) on well-formed input:
    the five special characters are replaced, every other byte is
    kept. *)
Definition escape_char (c : ascii) : string :=
  if Ascii.eqb c "&" then "&amp;"
  else if Ascii.eqb c double_quote then "&quot;"
  else if Ascii.eqb c "'" then "&#039;"
  else if Ascii.eqb c "<" then "&lt;"
  else if Ascii.eqb c ">" then "&gt;"
  else String c EmptyString.

Fixpoint htmlspecialchars (s : string) : string :=
  match s with
  | EmptyString => EmptyString
  | String c s' => escape_char c +:+ htmlspecialchars s'
  end.

(** [str_replace($search, $replace, $subject)] for a non-empty
    [$search]: every occurrence, left to right, without rescanning the
    replacement.  [skip] counts the characters of a matched occurrence
    that are still to be dropped. *)
Fixpoint str_replace_from (search replace : string) (skip : nat) (subject : string) : string :=
  match subject with
  | EmptyString => EmptyString
  | String c rest =>
    match skip with
    | S k => str_replace_from search replace k rest
    | O =>
      if String.prefix search subject
      then replace +:+ str_replace_from search replace (Nat.pred (String.length search)) rest
      else String c (str_replace_from search replace O rest)
    end
  end.

Definition str_replace (search replace subject : string) : string :=
  if decide (search = "") then subject
  else str_replace_from search replace O subject.

End Php.

(** ** [upload.php] *)

Module Upload.
Import Str Php.

(** The configuration at the top of the script. *)
Definition uploadDir : string := "uploads/".
Definition maxFileSize : Z := 2 * 1024 * 1024.
Definition allowedFileTypes : list string :=
  ["image/jpeg"; "image/png"; "image/gif"; "application/pdf"; "application/msword"].

Definition UPLOAD_ERR_OK : Z := 0.

(** One entry of [$_FILES]. *)
Record UploadedFile := {
  name : string;
  type : string;
  tmp_name : string;
  error : Z;
  size : Z
}.

(** The file system the script runs against.  [mkdir] stands for
    [mkdir($dir, 0755, true)], whose result the script ignores;
    [move_uploaded_file] is taken by its documented contract: it
    returns a boolean, and the file system may have changed. *)
Class Platform (World : Type) := {
  is_dir : World → string → bool;
  mkdir : World → string → World;
  move_uploaded_file : World → string → string → bool * World
}.

(** What PHP reports when an array is read at a key it does not have;
    the read itself evaluates to [null]. *)
Inductive Warning := UndefinedArrayKey (key : string).

Record Result (World : Type) := {
  message : string;
  warnings : list Warning;
  world : World
}.
Arguments message {World} _.
Arguments warnings {World} _.
Arguments world {World} _.

(** Reading [$array[$key]]: the value (or [null]) and the warning. *)
Definition array_read (array : gmap string string) (key : string)
  : option string * list Warning :=
  match array !! key with
  | Some v => (Some v, [])
  | None => (None, [UndefinedArrayKey key])
  end.

(** Lines 44-56 of [uploadFile]: the new file name, from the original
    file's extension (possibly [null]) and the desired name. *)
Definition resolveFileName (fileExtension : option string) (newFileName : string) : string :=
  if empty (pathinfo_extension newFileName) then
    newFileName +:+ "." +:+ strval fileExtension
  else
    let newFileName := basename newFileName in
    let newFileExtension := pathinfo_extension newFileName in
    if not_identical newFileExtension fileExtension then
      pathinfo_filename newFileName +:+ "." +:+ strval fileExtension
    else newFileName.

(** Lines 40-56: the name the file is stored under. *)
Definition finalFileName (file : UploadedFile) (newFileName : string) : string :=
  let pathInfo := pathinfo (name file) in
  let fileExtension := (array_read pathInfo "extension").1 in
  resolveFileName fileExtension newFileName.

(** Line 59. *)
Definition uploadFilePath (file : UploadedFile) (newFileName : string) : string :=
  uploadDir +:+ finalFileName file newFileName.

Section WithPlatform.
Context {World : Type} `{!Platform World}.

Definition uploadFile (w : World) (file : UploadedFile) (newFileName : string)
  : Result World :=
  if negb (error file =? UPLOAD_ERR_OK) then
    {| message := "There was an error uploading the file: " +:+ pretty (error file);
       warnings := []; world := w |}
  else if negb (in_array (type file) allowedFileTypes) then
    {| message := "File type not allowed: " +:+ type file;
       warnings := []; world := w |}
  else if size file >? maxFileSize then
    {| message := "File is too large: " +:+ name file;
       warnings := []; world := w |}
  else
    let w := if negb (is_dir w uploadDir) then mkdir w uploadDir else w in
    let pathInfo := pathinfo (name file) in
    let '(fileExtension, notices) := array_read pathInfo "extension" in
    let newFileName := resolveFileName fileExtension newFileName in
    let uploadFilePath := uploadDir +:+ newFileName in
    let '(moved, w) := move_uploaded_file w (tmp_name file) uploadFilePath in
    if moved then
      {| message := "File uploaded successfully: " +:+ htmlspecialchars newFileName;
         warnings := notices; world := w |}
    else
      {| message := "There was an error moving the uploaded file";
         warnings := notices; world := w |}.

(** Lines 75-77: the desired name posted for the file field [key]
    ([null], read as the empty string, when the field is missing). *)
Definition postedName (POST : gmap string string) (key : string) : string :=
  let inputName := str_replace "upload-container-" "file_name_" key in
  strval (array_read POST inputName).1.

(** The first loop of the script: one call of [uploadFile] per entry
    of [$_FILES], in order; the messages are collected and the file
    system and the warnings are threaded through. *)
Fixpoint collectMessages (POST : gmap string string) (w : World)
    (FILES : list (string * UploadedFile)) : list string * list Warning * World :=
  match FILES with
  | [] => ([], [], w)
  | (key, file) :: rest =>
    let inputName := str_replace "upload-container-" "file_name_" key in
    let '(fileName, notices) := array_read POST inputName in
    let r := uploadFile w file (strval fileName) in
    let '(messages, later, w') := collectMessages POST (world r) rest in
    (message r :: messages, notices ++ warnings r ++ later, w')
  end.

(** The second loop: every message is echoed, followed by a break. *)
Fixpoint echoMessages (messages : list string) : string :=
  match messages with
  | [] => ""
  | message :: rest => message +:+ "<br>" +:+ echoMessages rest
  end.

(** The script; [message] of the result is the response body. *)
Definition handleRequest (REQUEST_METHOD : string)
    (FILES : list (string * UploadedFile)) (POST : gmap string string) (w : World)
  : Result World :=
  if decide (REQUEST_METHOD = "POST") then
    let '(messages, notices, w') := collectMessages POST w FILES in
    {| message := echoMessages messages; warnings := notices; world := w' |}
  else
    {| message := "Please upload files"; warnings := []; world := w |}.

End WithPlatform.

(** The two kinds of message [uploadFile] returns. *)
Definition success_line (message : string) : bool :=
  String.prefix "File uploaded successfully: " message.

Definition failure_line (message : string) : bool :=
  String.prefix "There was an error uploading the file: " message
  || String.prefix "File type not allowed: " message
  || String.prefix "File is too large: " message
  || bool_decide (message = "There was an error moving the uploaded file").

(** The characters that start or end markup in a page.  No output of
    [htmlspecialchars] contains one. *)
Definition is_markup (c : ascii) : bool :=
  Ascii.eqb c "<" || Ascii.eqb c ">" || Ascii.eqb c double_quote.

Definition markup_free (message : string) : bool :=
  forallb (λ c, negb (is_markup c)) (chars message).

(** A file system that records the moves and accepts every one: an
    instance of the interface to run the script on. *)
Record Disk := { directories : list string; stored : list (string * string) }.

#[global] Instance disk_platform : Platform Disk := {
  is_dir w dir := bool_decide (dir ∈ directories w);
  mkdir w dir := {| directories := dir :: directories w; stored := stored w |};
  move_uploaded_file w from to :=
    (true, {| directories := directories w; stored := (to, from) :: stored w |})
}.

Definition empty_disk : Disk := {| directories := []; stored := [] |}.

End Upload.

(** ** [ddupload.js] *)

Module DDUpload.

(** [s.split(sep)] for a one-character separator. *)
Definition split (sep : ascii) (s : string) : list string := Str.split sep s.

(** [array.pop()] on the result of [split], which is never empty. *)
Definition pop (pieces : list string) : string := default "" (last pieces).

(** [s.toUpperCase()] on ASCII letters; other bytes are kept. *)
Definition upper_char (c : ascii) : ascii :=
  let n := nat_of_ascii c in
  if ((97 <=? n) && (n <=? 122))%nat then ascii_of_nat (n - 32) else c.

Fixpoint toUpperCase (s : string) : string :=
  match s with
  | EmptyString => EmptyString
  | String c s' => String (upper_char c) (toUpperCase s')
  end.

(** [array.includes(x)] on an array of strings, which is what the
    constructor documents [allowedFileTypes] to be. *)
Definition includes (array : list string) (x : string) : bool :=
  bool_decide (x ∈ array).

(** [(bytes / 1024 / 1024).toFixed(2)].  Both divisions are by a power
    of two and so exact on an integer-valued number: the value printed
    is the rational [bytes / 2^20].  [toFixed] takes the integer [n]
    with [n / 100] nearest to it, the larger one on a tie, and prints
    [n] with a point before its last two digits (for values below
    [10^21]). *)
Definition hundredths_of_MB (bytes : Z) : Z := (200 * bytes + 1048576) `div` 2097152.

Definition fixed2 (n : Z) : string :=
  pretty (n `div` 100) +:+ "." +:+ pretty ((n `mod` 100) `div` 10) +:+ pretty (n `mod` 10).

Definition toFixed2_MB (bytes : Z) : string :=
  (if bytes <? 0 then "-" else "") +:+ fixed2 (hundredths_of_MB (Z.abs bytes)).

(** A [File] as the widget reads it. *)
Record File := { name : string; type : string; size : Z }.

(** [this.options] after the constructor's defaults; the two callbacks
    are the caller's code and are modelled by the record of the calls
    made to them. *)
Record Options := {
  maxFileSize : Z;
  allowedFileTypes : list string;
  allowCamera : bool
}.

Inductive Call :=
| onChanged (file : File)
| onError (file : File) (message : string).

(** The values [dropZone.style.backgroundImage] takes: the empty
    string, [url(...)] of an object URL (named by its index in the
    store of object URLs), or [url(...)] of the built-in thumbnail. *)
Inductive BackgroundImage :=
| NoImage
| ObjectURL (id : nat)
| FileThumb.

(** The state the handlers read and write. *)
Record Widget := {
  options : Options;
  dropZone_dragover : bool;
  backgroundImage : BackgroundImage;
  backgroundRepeat : string;
  backgroundPosition : string;
  backgroundSize : string;
  messageElement_display : string;
  previewElement_textContent : string;
  fileInput_files : list File;
  objectURLs : list File;
  calls : list Call
}.

Definition set_dragover (v : bool) (w : Widget) : Widget :=
  {| options := options w; dropZone_dragover := v;
     backgroundImage := backgroundImage w; backgroundRepeat := backgroundRepeat w;
     backgroundPosition := backgroundPosition w; backgroundSize := backgroundSize w;
     messageElement_display := messageElement_display w;
     previewElement_textContent := previewElement_textContent w;
     fileInput_files := fileInput_files w; objectURLs := objectURLs w;
     calls := calls w |}.

Definition set_backgroundImage (v : BackgroundImage) (w : Widget) : Widget :=
  {| options := options w; dropZone_dragover := dropZone_dragover w;
     backgroundImage := v; backgroundRepeat := backgroundRepeat w;
     backgroundPosition := backgroundPosition w; backgroundSize := backgroundSize w;
     messageElement_display := messageElement_display w;
     previewElement_textContent := previewElement_textContent w;
     fileInput_files := fileInput_files w; objectURLs := objectURLs w;
     calls := calls w |}.

Definition set_backgroundRepeat (v : string) (w : Widget) : Widget :=
  {| options := options w; dropZone_dragover := dropZone_dragover w;
     backgroundImage := backgroundImage w; backgroundRepeat := v;
     backgroundPosition := backgroundPosition w; backgroundSize := backgroundSize w;
     messageElement_display := messageElement_display w;
     previewElement_textContent := previewElement_textContent w;
     fileInput_files := fileInput_files w; objectURLs := objectURLs w;
     calls := calls w |}.

Definition set_backgroundPosition (v : string) (w : Widget) : Widget :=
  {| options := options w; dropZone_dragover := dropZone_dragover w;
     backgroundImage := backgroundImage w; backgroundRepeat := backgroundRepeat w;
     backgroundPosition := v; backgroundSize := backgroundSize w;
     messageElement_display := messageElement_display w;
     previewElement_textContent := previewElement_textContent w;
     fileInput_files := fileInput_files w; objectURLs := objectURLs w;
     calls := calls w |}.

Definition set_backgroundSize (v : string) (w : Widget) : Widget :=
  {| options := options w; dropZone_dragover := dropZone_dragover w;
     backgroundImage := backgroundImage w; backgroundRepeat := backgroundRepeat w;
     backgroundPosition := backgroundPosition w; backgroundSize := v;
     messageElement_display := messageElement_display w;
     previewElement_textContent := previewElement_textContent w;
     fileInput_files := fileInput_files w; objectURLs := objectURLs w;
     calls := calls w |}.

Definition set_display (v : string) (w : Widget) : Widget :=
  {| options := options w; dropZone_dragover := dropZone_dragover w;
     backgroundImage := backgroundImage w; backgroundRepeat := backgroundRepeat w;
     backgroundPosition := backgroundPosition w; backgroundSize := backgroundSize w;
     messageElement_display := v;
     previewElement_textContent := previewElement_textContent w;
     fileInput_files := fileInput_files w; objectURLs := objectURLs w;
     calls := calls w |}.

Definition set_textContent (v : string) (w : Widget) : Widget :=
  {| options := options w; dropZone_dragover := dropZone_dragover w;
     backgroundImage := backgroundImage w; backgroundRepeat := backgroundRepeat w;
     backgroundPosition := backgroundPosition w; backgroundSize := backgroundSize w;
     messageElement_display := messageElement_display w;
     previewElement_textContent := v;
     fileInput_files := fileInput_files w; objectURLs := objectURLs w;
     calls := calls w |}.

Definition set_files (v : list File) (w : Widget) : Widget :=
  {| options := options w; dropZone_dragover := dropZone_dragover w;
     backgroundImage := backgroundImage w; backgroundRepeat := backgroundRepeat w;
     backgroundPosition := backgroundPosition w; backgroundSize := backgroundSize w;
     messageElement_display := messageElement_display w;
     previewElement_textContent := previewElement_textContent w;
     fileInput_files := v; objectURLs := objectURLs w;
     calls := calls w |}.

(** A call of one of the two callbacks. *)
Definition call (c : Call) (w : Widget) : Widget :=
  {| options := options w; dropZone_dragover := dropZone_dragover w;
     backgroundImage := backgroundImage w; backgroundRepeat := backgroundRepeat w;
     backgroundPosition := backgroundPosition w; backgroundSize := backgroundSize w;
     messageElement_display := messageElement_display w;
     previewElement_textContent := previewElement_textContent w;
     fileInput_files := fileInput_files w; objectURLs := objectURLs w;
     calls := calls w ++ [c] |}.

(** [URL.createObjectURL(file)]: a fresh URL, never released. *)
Definition createObjectURL (file : File) (w : Widget) : nat * Widget :=
  (length (objectURLs w),
   {| options := options w; dropZone_dragover := dropZone_dragover w;
      backgroundImage := backgroundImage w; backgroundRepeat := backgroundRepeat w;
      backgroundPosition := backgroundPosition w; backgroundSize := backgroundSize w;
      messageElement_display := messageElement_display w;
      previewElement_textContent := previewElement_textContent w;
      fileInput_files := fileInput_files w; objectURLs := objectURLs w ++ [file];
      calls := calls w |}).

(** The options object passed to the constructor: any field may be
    left out. *)
Record RawOptions := {
  raw_maxFileSize : option Z;
  raw_allowedFileTypes : option (list string);
  raw_allowCamera : option bool
}.

(** The constructor.  The class names, the placeholder's markup and the
    attributes of the file input are set once and read by no handler;
    they are not part of [Widget]. *)
Definition constructor (options : RawOptions) : Widget :=
  {| options :=
       {| maxFileSize := default 0 (raw_maxFileSize options);
          allowedFileTypes :=
            default ["image/jpeg"; "image/png"; "image/gif"; "image/webp"]
                    (raw_allowedFileTypes options);
          allowCamera := default false (raw_allowCamera options) |};
     dropZone_dragover := false;
     backgroundImage := NoImage; backgroundRepeat := "";
     backgroundPosition := ""; backgroundSize := "";
     messageElement_display := "";
     previewElement_textContent := "";
     fileInput_files := []; objectURLs := [];
     calls := [] |}.

Definition handleDragOver (w : Widget) : Widget := set_dragover true w.

Definition handleDragLeave (w : Widget) : Widget := set_dragover false w.

Definition assignFilesToInput (files : list File) (w : Widget) : Widget :=
  set_files files w.

Definition resetDisplay (w : Widget) : Widget :=
  let w := set_display "block" w in
  let w := set_textContent "" w in
  set_backgroundImage NoImage w.

Definition tooLargeMessage (o : Options) (file : File) : string :=
  "The file " +:+ name file +:+ " is too large (maximum size is "
    +:+ toFixed2_MB (maxFileSize o) +:+ "MB). Your file is "
    +:+ toFixed2_MB (size file) +:+ "MB.".

Definition notPermittedMessage (file : File) : string :=
  "The file " +:+ name file +:+ " is not a permitted file type.".

Definition validateFile (file : File) (w : Widget) : bool * Widget :=
  let o := options w in
  if (maxFileSize o >? 0) && (size file >? maxFileSize o) then
    (false, call (onError file (tooLargeMessage o file)) w)
  else if negb (includes (allowedFileTypes o) (type file))
          && negb (includes (allowedFileTypes o) "*") then
    (false, call (onError file (notPermittedMessage file)) w)
  else (true, w).

Definition displayFile (file : File) (w : Widget) : Widget :=
  let w := set_display "none" w in
  let w := set_backgroundRepeat "no-repeat" w in
  let w := set_backgroundPosition "center" w in
  if String.prefix "image/" (type file) then
    let '(url, w) := createObjectURL file w in
    let w := set_backgroundImage (ObjectURL url) w in
    set_backgroundSize "cover" w
  else
    let fileExtension := toUpperCase (pop (split "." (name file))) in
    let w := set_backgroundImage FileThumb w in
    let w := set_backgroundSize "100px" w in
    set_textContent fileExtension w.

Definition handleFiles (files : list File) (w : Widget) : Widget :=
  match files with
  | file :: _ =>
    let '(valid, w) := validateFile file w in
    if valid then
      let w := displayFile file w in
      call (onChanged file) w
    else
      (* [this.fileInput.value = ''] empties the input's file list *)
      let w := set_files [] w in
      resetDisplay w
  | [] => w
  end.

Definition handleDrop (files : list File) (w : Widget) : Widget :=
  let w := set_dragover false w in
  let w := assignFilesToInput files w in
  handleFiles files w.

(** The events the constructor listens to.  [Change files] is the file
    input's change event after the picker put [files] into the input;
    a click only opens the picker. *)
Inductive Event :=
| Click
| DragOver
| DragLeave
| Drop (files : list File)
| Change (files : list File).

Definition dispatch (w : Widget) (e : Event) : Widget :=
  match e with
  | Click => w
  | DragOver => handleDragOver w
  | DragLeave => handleDragLeave w
  | Drop files => handleDrop files w
  | Change files =>
    let w := set_files files w in
    handleFiles (fileInput_files w) w
  end.

Definition run (w : Widget) (events : list Event) : Widget :=
  foldl dispatch w events.

(** What the user sees of the selection: whether the placeholder
    message is shown, the preview's label and the background image. *)
Record Display := {
  placeholder_visible : bool;
  preview_label : string;
  preview_image : BackgroundImage
}.

Definition display (w : Widget) : Display :=
  {| placeholder_visible := negb (bool_decide (messageElement_display w = "none"));
     preview_label := previewElement_textContent w;
     preview_image := backgroundImage w |}.

(** The attributes [setupFileInput] gives the hidden file input of the
    drop zone with the id [dropZone_id]. *)
Record FileInput := {
  input_type : string;
  input_multiple : bool;
  input_style_display : string;
  input_name : string;
  input_accept : option string;
  input_capture : bool
}.

Definition setupFileInput (dropZone_id : string) (o : Options) : FileInput :=
  {| input_type := "file";
     input_multiple := false;
     input_style_display := "none";
     input_name := dropZone_id;
     input_accept := if allowCamera o then Some "image/*" else None;
     input_capture := allowCamera o |}.

(** The catch branch of [assignFilesToInput]: the files are added one by
    one, by index, to the items of a new [DataTransfer], whose file list
    goes into the input.  [i] is the loop counter and [todo] the number
    of rounds left; an index without a file adds nothing. *)
Fixpoint addItems (files : list File) (i : nat) (todo : nat) (items : list File)
  : list File :=
  match todo with
  | O => items
  | S todo' =>
    match files !! i with
    | Some file => addItems files (S i) todo' (items ++ [file])
    | None => addItems files (S i) todo' items
    end
  end.

Definition assignFilesToInput_fallback (files : list File) (w : Widget) : Widget :=
  let dataTransfer_files := addItems files 0 (length files) [] in
  set_files dataTransfer_files w.

End DDUpload.

(** ** Where a relative path leads *)

Module Path.

(** The directories entered from the working directory, innermost
    first, after each segment of the path; [None] when a [..] climbs
    above the working directory. *)
Fixpoint walk (cwd : list string) (segments : list string) : option (list string) :=
  match segments with
  | [] => Some cwd
  | segment :: rest =>
    if bool_decide (segment = "") || bool_decide (segment = ".") then walk cwd rest
    else if bool_decide (segment = "..") then
      match cwd with
      | [] => None
      | _ :: parent => walk parent rest
      end
    else walk (segment :: cwd) rest
  end.

Definition resolve (path : string) : option (list string) :=
  walk [] (Str.split "/" path).

(** [path] names something below the directory [dir]. *)
Definition strictly_inside (dir path : string) : bool :=
  match resolve dir, resolve path with
  | Some d, Some p => bool_decide (d `suffix_of` p) && negb (bool_decide (d = p))
  | _, _ => false
  end.

End Path.

(** ** Reading the record of callback calls *)

Module Trace.
Import DDUpload.

(** What [validateFile] answers for [file]. *)
Definition verdict (w : Widget) (file : File) : bool := (validateFile file w).1.

(** A call is justified when the widget's validation answers the same:
    [onChanged] for a file it accepts, [onError] for a file it rejects,
    with one of the two messages of [validateFile]. *)
Definition justified (w : Widget) (c : Call) : Prop :=
  match c with
  | onChanged file => verdict w file = true
  | onError file message =>
    verdict w file = false
    ∧ (message = tooLargeMessage (options w) file ∨ message = notPermittedMessage file)
  end.

(** The events that hand a non-empty list of files to [handleFiles]. *)
Definition selects (e : Event) : bool :=
  match e with
  | Drop (_ :: _) | Change (_ :: _) => true
  | _ => false
  end.

(** The messages of the [onError] calls, in order. *)
Fixpoint error_messages (calls : list Call) : list string :=
  match calls with
  | [] => []
  | onError _ message :: rest => message :: error_messages rest
  | onChanged _ :: rest => error_messages rest
  end.

(** The file of the last [onChanged] call. *)
Fixpoint last_changed (calls : list Call) : option File :=
  match calls with
  | [] => None
  | c :: rest =>
    match last_changed rest with
    | Some file => Some file
    | None => match c with onChanged file => Some file | onError _ _ => None end
    end
  end.

End Trace.

(** ** The demonstration page *)

Module Demo.
Import DDUpload.

(** What the page's script reads and writes: the values of the two
    text fields [file-name-1] and [file-name-2], and the alerts shown. *)
Record Page := {
  file_name_1 : string;
  file_name_2 : string;
  alerts : list string
}.

Definition blank : Page := {| file_name_1 := ""; file_name_2 := ""; alerts := [] |}.

Definition alert (message : string) (page : Page) : Page :=
  {| file_name_1 := file_name_1 page; file_name_2 := file_name_2 page;
     alerts := alerts page ++ [message] |}.

Definition checkFileSize (file : File) (maxSize : Z) (page : Page) : bool * Page :=
  if size file >? maxSize then
    (false, alert "File size exceeds the limit of 2MB." page)
  else (true, page).

(** The options of the two widgets of the page. *)
Definition options_1 : RawOptions :=
  {| raw_maxFileSize := Some (2 * 1024 * 1024);
     raw_allowedFileTypes := Some ["image/jpeg"; "image/png"; "image/gif"];
     raw_allowCamera := Some true |}.

Definition options_2 : RawOptions :=
  {| raw_maxFileSize := Some (2 * 1024 * 1024);
     raw_allowedFileTypes := Some ["*"];
     raw_allowCamera := None |}.

Definition widget_1 : Widget := constructor options_1.
Definition widget_2 : Widget := constructor options_2.

(** The two [onChanged] handlers. *)
Definition onChanged_1 (file : File) (page : Page) : Page :=
  let '(ok, page) := checkFileSize file (2 * 1024 * 1024) page in
  if ok then
    {| file_name_1 := name file; file_name_2 := file_name_2 page;
       alerts := alerts page |}
  else page.

Definition onChanged_2 (file : File) (page : Page) : Page :=
  let '(ok, page) := checkFileSize file (2 * 1024 * 1024) page in
  if ok then
    {| file_name_1 := file_name_1 page; file_name_2 := name file;
       alerts := alerts page |}
  else page.

(** The page passes no [onError]: the constructor's default,
    [(file, message) => alert(message)], is used. *)
Definition onError_default (file : File) (message : string) (page : Page) : Page :=
  alert message page.

(** The effect on the page of the calls a widget made, in order. *)
Definition deliver (handler : File → Page → Page) (page : Page) (c : Call) : Page :=
  match c with
  | onChanged file => handler file page
  | onError file message => onError_default file message page
  end.

Definition page_after (handler : File → Page → Page) (calls : list Call) (page : Page)
  : Page :=
  foldl (deliver handler) page calls.


End Demo.

(** ** More sample inputs *)

Module Cases.

Definition notes_0 : Upload.UploadedFile :=
  {| Upload.name := "notes.0"; Upload.type := "application/pdf";
     Upload.tmp_name := "/tmp/phpF6"; Upload.error := 0; Upload.size := 2048 |}.

Definition partial_upload : Upload.UploadedFile :=
  {| Upload.name := "cut.pdf"; Upload.type := "application/pdf";
     Upload.tmp_name := ""; Upload.error := 3; Upload.size := 0 |}.

Definition one_field : gmap string string := {[ "file_name_1" := "report.txt" ]}.



Definition camera_2MiB : DDUpload.Widget :=
  DDUpload.constructor
    {| DDUpload.raw_maxFileSize := Some 2097152;
       DDUpload.raw_allowedFileTypes := None;
       DDUpload.raw_allowCamera := Some true |}.

End Cases.

(** ** Sample requests and selections *)

Module Samples.
Import Upload.

Definition scan_pdf : UploadedFile :=
  {| name := "scan.pdf"; type := "application/pdf"; tmp_name := "/tmp/phpA1";
     error := 0; size := 51200 |}.



Definition script_type : UploadedFile :=
  {| name := "a.png"; type := "<script>alert(1)</script>"; tmp_name := "/tmp/phpD4";
     error := 0; size := 10 |}.

Definition script_name : UploadedFile :=
  {| name := "<img src=x onerror=alert(1)>.png"; type := "image/png";
     tmp_name := "/tmp/phpE5"; error := 0; size := 3145728 |}.


(** Widgets for any type up to 2 MiB, for the default image types up
    to 2 MiB and for the default image types of any size, and three
    files. *)
Definition any_type_2MiB : DDUpload.Widget :=
  DDUpload.constructor
    {| DDUpload.raw_maxFileSize := Some 2097152;
       DDUpload.raw_allowedFileTypes := Some ["*"];
       DDUpload.raw_allowCamera := None |}.

Definition images_2MiB : DDUpload.Widget :=
  DDUpload.constructor
    {| DDUpload.raw_maxFileSize := Some 2097152;
       DDUpload.raw_allowedFileTypes := None;
       DDUpload.raw_allowCamera := None |}.

Definition images_only : DDUpload.Widget :=
  DDUpload.constructor
    {| DDUpload.raw_maxFileSize := None;
       DDUpload.raw_allowedFileTypes := None;
       DDUpload.raw_allowCamera := None |}.

Definition letter_pdf : DDUpload.File :=
  {| DDUpload.name := "letter.pdf"; DDUpload.type := "application/pdf";
     DDUpload.size := 40960 |}.

Definition photo_png : DDUpload.File :=
  {| DDUpload.name := "photo.png"; DDUpload.type := "image/png";
     DDUpload.size := 734003 |}.

Definition film_mp4 : DDUpload.File :=
  {| DDUpload.name := "film.mp4"; DDUpload.type := "video/mp4";
     DDUpload.size := 3000000 |}.

End Samples.

(** * Properties *)

(** ** Facts about the string functions *)

Section StringFacts.
Import Str Php.

Lemma of_chars_chars s : of_chars (chars s) = s.
Proof. apply String.string_of_list_ascii_of_string. Qed.

Lemma chars_of_chars l : chars (of_chars l) = l.
Proof. apply String.list_ascii_of_string_of_list_ascii. Qed.

Lemma chars_app s t : chars (s +:+ t) = chars s ++ chars t.
Proof. induction s as [|c s IH]; simpl; [done | by rewrite <- IH]. Qed.

Lemma take_while_holds {A} (p : A → bool) l :
  Forall (λ x, p x = true) (take_while p l).
Proof.
  induction l as [|x l IH]; simpl; [constructor |].
  destruct (p x) eqn:Hx; by constructor.
Qed.

Lemma take_while_all {A} (p : A → bool) l :
  Forall (λ x, p x = true) l → take_while p l = l.
Proof. induction 1 as [|x l Hx _ IH]; simpl; [done | by rewrite Hx, IH]. Qed.

Lemma drop_while_none {A} (p : A → bool) l :
  Forall (λ x, p x = false) l → drop_while p l = l.
Proof. destruct 1 as [|x l Hx _]; simpl; [done | by rewrite Hx]. Qed.

Lemma basename_no_slash path :
  Forall (λ c, is_slash c = false) (chars (basename path)).
Proof.
  unfold basename. rewrite chars_of_chars.
  apply Forall_reverse.
  eapply Forall_impl; [apply take_while_holds |].
  intros c Hc. by apply negb_true_iff.
Qed.

Lemma basename_of_plain_name s :
  Forall (λ c, is_slash c = false) (chars s) → basename s = s.
Proof.
  intros Hs. unfold basename.
  rewrite drop_while_none by by apply Forall_reverse.
  rewrite take_while_all.
  - by rewrite reverse_involutive, of_chars_chars.
  - apply Forall_reverse. eapply Forall_impl; [exact Hs |].
    intros c Hc. simpl. by rewrite Hc.
Qed.

Lemma basename_idem path : basename (basename path) = basename path.
Proof. apply basename_of_plain_name, basename_no_slash. Qed.

Lemma split_last_dot_None s :
  split_last_dot s = None ↔ Forall (λ c, is_dot c = false) (chars s).
Proof.
  induction s as [|c s IH]; simpl.
  - split; [constructor | done].
  - destruct (split_last_dot s) as [[stem ext]|].
    + split; [done |]. intros H. apply Forall_cons in H as [_ H].
      by apply IH in H.
    + destruct (is_dot c) eqn:Hc.
      * split; [done |]. intros H. apply Forall_cons in H as [H _]. congruence.
      * split; [| done]. intros _. constructor; [done |]. by apply IH.
Qed.

Lemma split_last_dot_Some s stem ext :
  split_last_dot s = Some (stem, ext) →
  s = stem +:+ "." +:+ ext ∧ Forall (λ c, is_dot c = false) (chars ext).
Proof.
  revert stem. induction s as [|c s IH]; intros stem; simpl; [done |].
  destruct (split_last_dot s) as [[stem' ext']|] eqn:Hs.
  - intros [= <- <-]. destruct (IH _ eq_refl) as [-> Hext]. done.
  - destruct (is_dot c) eqn:Hc; [| done].
    intros [= <- <-]. apply Ascii.eqb_eq in Hc as ->.
    split; [done |]. by apply split_last_dot_None.
Qed.

Lemma prefix_nil s : String.prefix "" s = true.
Proof. by destruct s. Qed.

Lemma prefix_app p s : String.prefix p (p +:+ s) = true.
Proof.
  induction p as [|c p IH]; [apply prefix_nil |].
  change (String c p +:+ s) with (String c (p +:+ s)). simpl.
  by destruct (ascii_dec c c).
Qed.

Lemma forallb_app_chars (p : ascii → bool) s t :
  forallb p (chars (s +:+ t)) = forallb p (chars s) && forallb p (chars t).
Proof. by rewrite chars_app, forallb_app. Qed.

(** The output of [htmlspecialchars] has no markup character. *)
Lemma htmlspecialchars_markup_free raw :
  Upload.markup_free (htmlspecialchars raw) = true.
Proof.
  unfold Upload.markup_free. induction raw as [|c raw IH]; simpl; [done |].
  rewrite forallb_app_chars, IH, andb_true_r.
  unfold escape_char.
  repeat (match goal with |- context [Ascii.eqb c ?x] =>
            destruct (Ascii.eqb_spec c x) as [-> |]; [done |] end).
  simpl. unfold Upload.is_markup.
  by rewrite !(proj2 (Ascii.eqb_neq _ _)).
Qed.

Lemma pathinfo_lookup_extension path :
  pathinfo path !! "extension" = snd <$> split_last_dot (basename path).
Proof.
  unfold pathinfo.
  destruct (split_last_dot (basename path)) as [[stem ext]|]; simpl.
  - rewrite lookup_insert_ne by done. by rewrite lookup_insert_eq.
  - rewrite !lookup_insert_ne by done.
    case_decide; [done |]. by rewrite lookup_singleton_ne.
Qed.

Lemma pathinfo_extension_basename path :
  pathinfo_extension (basename path) = pathinfo_extension path.
Proof. unfold pathinfo_extension. by rewrite basename_idem. Qed.

End StringFacts.

(** ** The endpoint: the stored file name *)

Section FileNameFacts.
Import Str Php Upload.

Lemma array_read_lookup (array : gmap string string) key :
  (array_read array key).1 = array !! key.
Proof. unfold array_read. by destruct (array !! key). Qed.

Lemma array_read_warning (array : gmap string string) key :
  (array_read array key).2 =
    match array !! key with Some _ => [] | None => [UndefinedArrayKey key] end.
Proof. unfold array_read. by destruct (array !! key). Qed.

Lemma finalFileName_eq file newFileName :
  finalFileName file newFileName =
    resolveFileName (pathinfo (name file) !! "extension") newFileName.
Proof. unfold finalFileName. by rewrite array_read_lookup. Qed.

(** A desired name without an extension (or with the extension [""] or
    ["0"], which [empty] does not tell apart from none) gets the
    original extension appended, directories and all. *)
Lemma finalFileName_appends file ext newFileName :
  pathinfo (name file) !! "extension" = Some ext →
  empty (pathinfo_extension newFileName) = true →
  finalFileName file newFileName = newFileName +:+ "." +:+ ext.
Proof.
  intros Hext Hempty. rewrite finalFileName_eq, Hext.
  unfold resolveFileName. by rewrite Hempty.
Qed.

(** A desired name with another extension is cut to its base name and
    the original extension put in its place. *)
Lemma finalFileName_replaces file ext newFileName :
  pathinfo (name file) !! "extension" = Some ext →
  empty (pathinfo_extension newFileName) = false →
  pathinfo_extension newFileName ≠ ext →
  finalFileName file newFileName = pathinfo_filename newFileName +:+ "." +:+ ext.
Proof.
  intros Hext Hempty Hne. rewrite finalFileName_eq, Hext.
  unfold resolveFileName. rewrite Hempty, pathinfo_extension_basename.
  unfold not_identical. rewrite bool_decide_eq_false_2 by congruence. simpl.
  unfold pathinfo_filename. by rewrite basename_idem.
Qed.

(** A desired name with the original's extension is cut to its base
    name. *)
Lemma finalFileName_keeps file newFileName :
  empty (pathinfo_extension newFileName) = false →
  pathinfo (name file) !! "extension" = Some (pathinfo_extension newFileName) →
  finalFileName file newFileName = basename newFileName.
Proof.
  intros Hempty Hext. rewrite finalFileName_eq, Hext.
  unfold resolveFileName. rewrite Hempty, pathinfo_extension_basename.
  unfold not_identical. by rewrite bool_decide_eq_true_2.
Qed.

(** Whatever the desired name, the stored name ends in the original
    file's extension. *)
Lemma finalFileName_extension_wins file ext newFileName :
  pathinfo (name file) !! "extension" = Some ext →
  ∃ stem, finalFileName file newFileName = stem +:+ "." +:+ ext.
Proof.
  intros Hext.
  destruct (empty (pathinfo_extension newFileName)) eqn:Hempty.
  { eexists. by apply finalFileName_appends. }
  destruct (decide (pathinfo_extension newFileName = ext)) as [Heq | Hne].
  - subst ext. rewrite finalFileName_keeps by done.
    revert Hempty. unfold pathinfo_extension.
    destruct (split_last_dot (basename newFileName)) as [[stem e]|] eqn:Hsplit.
    + intros _. apply split_last_dot_Some in Hsplit as [-> _]. by eexists.
    + done.
  - eexists. by apply finalFileName_replaces.
Qed.

(** Where [basename] is applied (the desired name has an extension
    that [empty] accepts), the stored name has no slash. *)
Lemma finalFileName_no_slash file newFileName :
  empty (pathinfo_extension newFileName) = false →
  Forall (λ c, is_slash c = false) (chars (finalFileName file newFileName)).
Proof.
  intros Hempty. rewrite finalFileName_eq.
  unfold resolveFileName. rewrite Hempty.
  destruct (not_identical _ _); [| apply basename_no_slash].
  rewrite !chars_app. apply Forall_app. split.
  - unfold pathinfo_filename. rewrite basename_idem.
    pose proof (basename_no_slash newFileName) as Hbase.
    destruct (split_last_dot (basename newFileName)) as [[stem e]|] eqn:Hsplit;
      [| done].
    apply split_last_dot_Some in Hsplit as [Heq _].
    rewrite Heq, chars_app in Hbase. by apply Forall_app in Hbase as [? _].
  - apply Forall_app. split; [by repeat constructor |].
    rewrite pathinfo_lookup_extension.
    pose proof (basename_no_slash (name file)) as Hbase.
    destruct (split_last_dot (basename (name file))) as [[stem e]|] eqn:Hsplit;
      simpl; [| constructor].
    apply split_last_dot_Some in Hsplit as [Heq _].
    rewrite Heq, !chars_app in Hbase.
    apply Forall_app in Hbase as [_ Hbase]. by apply Forall_app in Hbase as [_ ?].
Qed.

End FileNameFacts.

(** ** The endpoint: [uploadFile] and the script *)

Section EndpointFacts.
Import Str Php Upload.
Context {World : Type} `{!Platform World}.

Lemma in_array_true needle haystack :
  in_array needle haystack = true ↔ needle ∈ haystack.
Proof. unfold in_array. apply bool_decide_eq_true. Qed.

(** Past the three checks, [uploadFile] moves the file to
    [uploadFilePath] and reports on the move. *)
Lemma uploadFile_checked (w : World) file newFileName :
  error file = UPLOAD_ERR_OK →
  type file ∈ allowedFileTypes →
  size file ≤ maxFileSize →
  let w1 := if negb (is_dir w uploadDir) then mkdir w uploadDir else w in
  let moved := move_uploaded_file w1 (tmp_name file) (uploadFilePath file newFileName) in
  uploadFile w file newFileName =
    {| message :=
         if moved.1
         then "File uploaded successfully: "
                +:+ htmlspecialchars (finalFileName file newFileName)
         else "There was an error moving the uploaded file";
       warnings := (array_read (pathinfo (name file)) "extension").2;
       world := moved.2 |}.
Proof.
  intros Herr Htype Hsize. simpl. unfold uploadFile.
  rewrite Herr, Z.eqb_refl. simpl.
  apply in_array_true in Htype. rewrite Htype. simpl.
  replace (size file >? maxFileSize) with false by (symmetry; lia).
  unfold uploadFilePath, finalFileName.
  destruct (array_read (pathinfo (name file)) "extension") as [ext notices]. simpl.
  destruct (move_uploaded_file _ _ _) as [[] w']; done.
Qed.


Lemma collectMessages_cons POST (w : World) key file rest :
  collectMessages POST w ((key, file) :: rest) =
    let r := uploadFile w file (postedName POST key) in
    let later := collectMessages POST (world r) rest in
    (message r :: later.1.1,
     (array_read POST (str_replace "upload-container-" "file_name_" key)).2
       ++ warnings r ++ later.1.2,
     later.2).
Proof.
  simpl. unfold postedName.
  destruct (array_read POST _) as [fileName notices]. simpl.
  by destruct (collectMessages POST _ rest) as [[messages later] w'].
Qed.



Lemma handleRequest_POST FILES POST (w : World) :
  message (handleRequest "POST" FILES POST w) =
    echoMessages (collectMessages POST w FILES).1.1.
Proof.
  unfold handleRequest. rewrite decide_True by done.
  by destruct (collectMessages POST w FILES) as [[messages notices] w'].
Qed.

End EndpointFacts.

(** ** The endpoint: the claims *)

Section EndpointClaims.
Import Str Php Upload Samples.

(** C1 (defect of the code).  The claim: the desired name is always cut
    to its base name, so the stored path lies inside the upload
    directory, also for ["../../etc/passwd"].  The code cuts the name
    only in the branch for names with an extension: for every uploaded
    file the path computed for ["../../etc/passwd"] is
    ["uploads/../../etc/passwd.<ext>"], which leaves the upload
    directory, and that is where the file is moved. *)
Theorem C1_desired_name_leaves_upload_dir :
  (∀ file,
     uploadFilePath file "../../etc/passwd" =
       "uploads/../../etc/passwd." +:+ strval (pathinfo (name file) !! "extension")
     ∧ Path.strictly_inside uploadDir (uploadFilePath file "../../etc/passwd") = false)
  ∧ uploadFile empty_disk scan_pdf "../../etc/passwd" =
      {| message := "File uploaded successfully: ../../etc/passwd.pdf";
         warnings := [];
         world := {| directories := ["uploads/"];
                     stored := [("uploads/../../etc/passwd.pdf", "/tmp/phpA1")] |} |}.
Proof.
  split; [| by vm_compute].
  intros file. unfold uploadFilePath. rewrite finalFileName_eq.
  generalize (pathinfo (name file) !! "extension"). intros ext.
  split; by vm_compute.
Qed.

(** C2 (defect of the code).  The claim: a desired name without an
    extension gets the original's appended, and an extension that
    differs from the original's is replaced by it.  The two examples of
    the claim hold, but [empty] also holds of the extension ["0"]: the
    desired name ["report.0"] takes the branch for names without an
    extension and is stored as ["report.0.<ext>"], for every uploaded
    file, where the claim says ["report.<ext>"]. *)
Theorem C2_extension_zero_is_not_replaced :
  finalFileName scan_pdf "report" = "report.pdf"
  ∧ finalFileName scan_pdf "report.txt" = "report.pdf"
  ∧ pathinfo_extension "report.0" = "0"
  ∧ pathinfo_filename "report.0" = "report"
  ∧ finalFileName scan_pdf "report.0" = "report.0.pdf"
  ∧ ∀ file, finalFileName file "report.0" =
             "report.0." +:+ strval (pathinfo (name file) !! "extension").
Proof.
  repeat split; try by vm_compute.
  intros file. rewrite finalFileName_eq.
  generalize (pathinfo (name file) !! "extension"). intros ext. by vm_compute.
Qed.

Section OnAnyFileSystem.
Context {World : Type} `{!Platform World}.

(** C3 (defect of the code).  The claim: every result line is
    HTML-escaped as a whole before it is emitted.  The code escapes
    the file name in the success line only; the lines for a
    disallowed type and for a file that is too large carry the
    client's MIME type and file name as they came, and the script
    echoes them unchanged. *)
Theorem C3_failure_lines_are_not_escaped (w : World) (POST : gmap string string) :
  (∀ newFileName,
     message (uploadFile w script_type newFileName) =
       "File type not allowed: <script>alert(1)</script>")
  ∧ (∀ newFileName,
       message (uploadFile w script_name newFileName) =
         "File is too large: <img src=x onerror=alert(1)>.png")
  ∧ message (handleRequest "POST" [("upload-container-1", script_type)] POST w) =
      "File type not allowed: <script>alert(1)</script><br>"
  ∧ markup_free "File type not allowed: <script>alert(1)</script>" = false
  ∧ markup_free "File is too large: <img src=x onerror=alert(1)>.png" = false
  ∧ (∀ raw, htmlspecialchars raw ≠ "File type not allowed: <script>alert(1)</script>")
  ∧ (∀ raw, htmlspecialchars raw ≠ "File is too large: <img src=x onerror=alert(1)>.png").
Proof.
  split; [done |]. split; [done |]. split.
  { rewrite handleRequest_POST, collectMessages_cons. done. }
  split; [done |]. split; [done |].
  split; intros raw Heq; pose proof (htmlspecialchars_markup_free raw) as Hfree;
    by rewrite Heq in Hfree.
Qed.



End OnAnyFileSystem.

End EndpointClaims.

(** ** The widget: validation and display *)

Section WidgetFacts.
Import DDUpload.

Lemma includes_true array x : includes array x = true ↔ x ∈ array.
Proof. unfold includes. apply bool_decide_eq_true. Qed.

Lemma includes_false array x : includes array x = false ↔ x ∉ array.
Proof. unfold includes. apply bool_decide_eq_false. Qed.

(** The three outcomes of [validateFile], by the conditions of its two
    tests. *)
Lemma validateFile_too_large file w :
  maxFileSize (options w) > 0 →
  size file > maxFileSize (options w) →
  validateFile file w =
    (false, call (onError file (tooLargeMessage (options w) file)) w).
Proof.
  intros Hmax Hsize. unfold validateFile.
  replace (maxFileSize (options w) >? 0) with true by (symmetry; lia).
  by replace (size file >? maxFileSize (options w)) with true by (symmetry; lia).
Qed.

Lemma validateFile_size_passes file w :
  ¬ (maxFileSize (options w) > 0 ∧ size file > maxFileSize (options w)) →
  (maxFileSize (options w) >? 0) && (size file >? maxFileSize (options w)) = false.
Proof.
  intros Hnot. apply andb_false_iff.
  destruct (Z.gtb_spec (maxFileSize (options w)) 0); [| by left].
  destruct (Z.gtb_spec (size file) (maxFileSize (options w))); [| by right].
  exfalso. apply Hnot. lia.
Qed.

Lemma validateFile_not_permitted file w :
  ¬ (maxFileSize (options w) > 0 ∧ size file > maxFileSize (options w)) →
  type file ∉ allowedFileTypes (options w) →
  "*" ∉ allowedFileTypes (options w) →
  validateFile file w = (false, call (onError file (notPermittedMessage file)) w).
Proof.
  intros Hsize Htype Hstar. unfold validateFile.
  rewrite validateFile_size_passes by done.
  apply includes_false in Htype, Hstar. by rewrite Htype, Hstar.
Qed.

Lemma validateFile_accepts file w :
  ¬ (maxFileSize (options w) > 0 ∧ size file > maxFileSize (options w)) →
  type file ∈ allowedFileTypes (options w) ∨ "*" ∈ allowedFileTypes (options w) →
  validateFile file w = (true, w).
Proof.
  intros Hsize Htype. unfold validateFile.
  rewrite validateFile_size_passes by done.
  destruct Htype as [Htype | Hstar].
  - apply includes_true in Htype. by rewrite Htype.
  - apply includes_true in Hstar. by rewrite Hstar, andb_false_r.
Qed.

(** A rejection is a single call of [onError], and nothing else. *)
Lemma validateFile_rejects file w :
  (validateFile file w).1 = false →
  ∃ message, validateFile file w = (false, call (onError file message) w).
Proof.
  unfold validateFile.
  destruct (_ && _); [by eexists |].
  destruct (_ && _); [by eexists | done].
Qed.

(** The two messages of [validateFile] differ on every file. *)
Lemma messages_differ o file : tooLargeMessage o file ≠ notPermittedMessage file.
Proof.
  unfold tooLargeMessage, notPermittedMessage. intros Heq.
  apply (inj (String.app "The file ")) in Heq.
  apply (inj (String.app (name file))) in Heq.
  revert Heq. generalize (toFixed2_MB (maxFileSize o)) (toFixed2_MB (size file)).
  intros limit actual. by vm_compute.
Qed.

(** [resetDisplay] hides the image and the label; the repeat, position
    and size of the background keep the values [displayFile] gave
    them, which shows nothing without an image. *)
Lemma resetDisplay_keeps_background_style w :
  backgroundRepeat (resetDisplay w) = backgroundRepeat w
  ∧ backgroundPosition (resetDisplay w) = backgroundPosition w
  ∧ backgroundSize (resetDisplay w) = backgroundSize w.
Proof. done. Qed.

(** [displayFile] calls no callback and leaves the input alone. *)
Lemma displayFile_calls file w : calls (displayFile file w) = calls w.
Proof. unfold displayFile. by destruct (String.prefix _ _). Qed.

Lemma displayFile_files file w :
  fileInput_files (displayFile file w) = fileInput_files w.
Proof. unfold displayFile. by destruct (String.prefix _ _). Qed.

(** What is shown after [displayFile]: for an image the label is the
    one that was there before. *)
Lemma displayFile_image file w :
  String.prefix "image/" (type file) = true →
  display (displayFile file w) =
    {| placeholder_visible := false;
       preview_label := previewElement_textContent w;
       preview_image := ObjectURL (length (objectURLs w)) |}
  ∧ objectURLs (displayFile file w) = objectURLs w ++ [file].
Proof. intros Himage. unfold displayFile. by rewrite Himage. Qed.

Lemma displayFile_other file w :
  String.prefix "image/" (type file) = false →
  display (displayFile file w) =
    {| placeholder_visible := false;
       preview_label := toUpperCase (pop (split "." (name file)));
       preview_image := FileThumb |}.
Proof. intros Himage. unfold displayFile. by rewrite Himage. Qed.

(** The options are those of the constructor, whatever happens. *)
Lemma validateFile_options file w : options (validateFile file w).2 = options w.
Proof.
  unfold validateFile.
  destruct (_ && _); [done |]. by destruct (_ && _).
Qed.

Lemma handleFiles_options files w : options (handleFiles files w) = options w.
Proof.
  destruct files as [|file others]; [done |]. unfold handleFiles.
  pose proof (validateFile_options file w) as Ho.
  destruct (validateFile file w) as [[] w']; simpl in *; [| done].
  rewrite <- Ho. unfold displayFile. by destruct (String.prefix _ _).
Qed.

Lemma dispatch_options w e : options (dispatch w e) = options w.
Proof.
  destruct e as [| | | files | files]; try done.
  - unfold dispatch, handleDrop. by rewrite handleFiles_options.
  - unfold dispatch. by rewrite handleFiles_options.
Qed.

Lemma run_options w events : options (run w events) = options w.
Proof.
  revert w. induction events as [|e events IH]; intros w; [done |].
  unfold run in *. simpl. by rewrite IH, dispatch_options.
Qed.

(** [toFixed(2)] prints the nearest hundredth. *)
Lemma hundredths_of_MB_nearest bytes :
  2 * Z.abs (1048576 * hundredths_of_MB bytes - 100 * bytes) ≤ 1048576.
Proof.
  unfold hundredths_of_MB.
  pose proof (Z.div_mod (200 * bytes + 1048576) 2097152 ltac:(done)) as Hdiv.
  pose proof (Z.mod_pos_bound (200 * bytes + 1048576) 2097152 ltac:(done)) as Hmod.
  lia.
Qed.

Lemma fixed2_digits n :
  0 ≤ n →
  ∃ whole tenths hundredths,
    fixed2 n = pretty whole +:+ "." +:+ pretty tenths +:+ pretty hundredths
    ∧ n = 100 * whole + 10 * tenths + hundredths
    ∧ 0 ≤ whole ∧ 0 ≤ tenths ≤ 9 ∧ 0 ≤ hundredths ≤ 9.
Proof.
  intros Hn. exists (n `div` 100), ((n `mod` 100) `div` 10), (n `mod` 10).
  split; [done |].
  pose proof (Z.div_mod n 100 ltac:(done)).
  pose proof (Z.mod_pos_bound n 100 ltac:(done)).
  pose proof (Z.div_mod n 10 ltac:(done)).
  pose proof (Z.mod_pos_bound n 10 ltac:(done)).
  pose proof (Z.div_mod (n `mod` 100) 10 ltac:(done)).
  pose proof (Z.mod_pos_bound (n `mod` 100) 10 ltac:(done)).
  lia.
Qed.

End WidgetFacts.

(** ** The widget: the claims *)

Section WidgetClaims.
Import DDUpload Samples.

(** C4.  [validateFile] tests the size first: with a positive maximum
    and a larger file it rejects with the size message, whatever the
    MIME type is; otherwise, with a MIME type that is not in the
    allowed list and no ["*"] in the list, it rejects with the type
    message; otherwise it accepts and calls nothing.  The two messages
    differ on every file. *)
Theorem C4_validateFile_order (file : File) (w : Widget) :
  let o := options w in
  (maxFileSize o > 0 → size file > maxFileSize o →
     validateFile file w = (false, call (onError file (tooLargeMessage o file)) w))
  ∧ (¬ (maxFileSize o > 0 ∧ size file > maxFileSize o) →
     type file ∉ allowedFileTypes o → "*" ∉ allowedFileTypes o →
     validateFile file w = (false, call (onError file (notPermittedMessage file)) w))
  ∧ (¬ (maxFileSize o > 0 ∧ size file > maxFileSize o) →
     type file ∈ allowedFileTypes o ∨ "*" ∈ allowedFileTypes o →
     validateFile file w = (true, w))
  ∧ tooLargeMessage o file ≠ notPermittedMessage file.
Proof.
  intros o. split; [| split; [| split]].
  - apply validateFile_too_large.
  - apply validateFile_not_permitted.
  - apply validateFile_accepts.
  - apply messages_differ.
Qed.

(** C5.  A file within the maximum (or with the maximum 0) and of an
    allowed type (or with ["*"] allowed): [handleFiles] accepts it,
    displays it and calls [onChanged] once, with that file, and
    [onError] not at all, whether the selection came from the picker or
    from a drop. *)
Theorem C5_valid_file_accepted (file : File) (others : list File) (w : Widget) :
  size file ≤ maxFileSize (options w) ∨ maxFileSize (options w) = 0 →
  type file ∈ allowedFileTypes (options w) ∨ "*" ∈ allowedFileTypes (options w) →
  validateFile file w = (true, w)
  ∧ handleFiles (file :: others) w = call (onChanged file) (displayFile file w)
  ∧ calls (handleFiles (file :: others) w) = calls w ++ [onChanged file]
  ∧ calls (dispatch w (Change (file :: others))) = calls w ++ [onChanged file]
  ∧ calls (dispatch w (Drop (file :: others))) = calls w ++ [onChanged file].
Proof.
  intros Hsize Htype.
  assert (∀ w', options w' = options w → calls w' = calls w →
            validateFile file w' = (true, w')
            ∧ handleFiles (file :: others) w' = call (onChanged file) (displayFile file w')
            ∧ calls (handleFiles (file :: others) w') = calls w ++ [onChanged file])
    as Hany.
  { intros w' Ho Hc.
    assert (validateFile file w' = (true, w')) as Hvalid.
    { apply validateFile_accepts; rewrite Ho; [lia | done]. }
    split; [done |]. unfold handleFiles. rewrite Hvalid.
    split; [done |]. cbn [call calls]. by rewrite displayFile_calls, Hc. }
  destruct (Hany w eq_refl eq_refl) as (Hvalid & Hhandle & Hcalls).
  repeat split; try done.
  - apply (Hany (set_files (file :: others) w)); done.
  - apply (Hany (assignFilesToInput (file :: others) (set_dragover false w))); done.
Qed.

(** C6.  A file larger than a positive maximum: validation rejects it
    and [onError] is called once, with the file and a message that
    carries the maximum and the file's size in MB, each printed as the
    nearest hundredth with two digits after the point. *)
Theorem C6_too_large_reported (file : File) (others : list File) (w : Widget) :
  0 < maxFileSize (options w) →
  maxFileSize (options w) < size file →
  ∃ limit actual message,
    validateFile file w = (false, call (onError file message) w)
    ∧ calls (handleFiles (file :: others) w) = calls w ++ [onError file message]
    ∧ message = "The file " +:+ name file +:+ " is too large (maximum size is "
                  +:+ fixed2 limit +:+ "MB). Your file is " +:+ fixed2 actual +:+ "MB."
    ∧ 2 * Z.abs (1048576 * limit - 100 * maxFileSize (options w)) ≤ 1048576
    ∧ 2 * Z.abs (1048576 * actual - 100 * size file) ≤ 1048576
    ∧ (∃ whole tenths hundredths,
         fixed2 limit = pretty whole +:+ "." +:+ pretty tenths +:+ pretty hundredths
         ∧ limit = 100 * whole + 10 * tenths + hundredths
         ∧ 0 ≤ whole ∧ 0 ≤ tenths ≤ 9 ∧ 0 ≤ hundredths ≤ 9)
    ∧ (∃ whole tenths hundredths,
         fixed2 actual = pretty whole +:+ "." +:+ pretty tenths +:+ pretty hundredths
         ∧ actual = 100 * whole + 10 * tenths + hundredths
         ∧ 0 ≤ whole ∧ 0 ≤ tenths ≤ 9 ∧ 0 ≤ hundredths ≤ 9).
Proof.
  intros Hmax Hsize.
  exists (hundredths_of_MB (maxFileSize (options w))), (hundredths_of_MB (size file)),
         (tooLargeMessage (options w) file).
  assert (validateFile file w =
            (false, call (onError file (tooLargeMessage (options w) file)) w)) as Hvalid.
  { apply validateFile_too_large; lia. }
  split; [done |]. split.
  { unfold handleFiles. by rewrite Hvalid. }
  split.
  { unfold tooLargeMessage, toFixed2_MB.
    replace (maxFileSize (options w) <? 0) with false by (symmetry; lia).
    replace (size file <? 0) with false by (symmetry; lia).
    by rewrite !Z.abs_eq by lia. }
  split; [apply hundredths_of_MB_nearest |].
  split; [apply hundredths_of_MB_nearest |].
  split; apply fixed2_digits; unfold hundredths_of_MB; apply Z.div_pos; lia.
Qed.

(** C8 (defect of the code).  The claim: after an accepted selection
    the placeholder, the background and the preview label show the
    last file only.  [displayFile] sets the label for a file that is
    not an image and leaves it alone for an image: after a PDF and then
    a picture the label still reads "PDF", where after the picture
    alone it is empty. *)
Theorem C8_image_keeps_previous_label :
  display (run any_type_2MiB [Change [letter_pdf]; Change [photo_png]]) =
    {| placeholder_visible := false; preview_label := "PDF";
       preview_image := ObjectURL 0 |}
  ∧ display (run any_type_2MiB [Change [photo_png]]) =
      {| placeholder_visible := false; preview_label := "";
         preview_image := ObjectURL 0 |}
  ∧ calls (run any_type_2MiB [Change [letter_pdf]; Change [photo_png]]) =
      [onChanged letter_pdf; onChanged photo_png]
  ∧ fileInput_files (run any_type_2MiB [Change [letter_pdf]; Change [photo_png]]) =
      [photo_png].
Proof. by vm_compute. Qed.

(** C9.  A file that validation rejects: [onError] is called once with
    the file and the message, the file input is emptied, the
    placeholder is shown again, the label and the background image are
    cleared, and what is shown (placeholder, label and image, see
    [display]) is what a new widget shows. *)
Theorem C9_rejected_file_resets (file : File) (others : list File) (w : Widget) :
  (validateFile file w).1 = false →
  ∃ message,
    validateFile file w = (false, call (onError file message) w)
    ∧ calls (handleFiles (file :: others) w) = calls w ++ [onError file message]
    ∧ fileInput_files (handleFiles (file :: others) w) = []
    ∧ messageElement_display (handleFiles (file :: others) w) = "block"
    ∧ previewElement_textContent (handleFiles (file :: others) w) = ""
    ∧ backgroundImage (handleFiles (file :: others) w) = NoImage
    ∧ ∀ o, display (handleFiles (file :: others) w) = display (constructor o).
Proof.
  intros Hrejected.
  destruct (validateFile_rejects file w Hrejected) as [message Hvalid].
  exists message. split; [done |].
  unfold handleFiles. rewrite Hvalid. done.
Qed.

End WidgetClaims.

(** ** The claims at sample inputs *)

Section Witnesses.
Import Str Php Samples.

Ltac decided := apply (bool_decide_unpack _); vm_compute; exact I.

Lemma C4_validateFile_order_witness :
  DDUpload.validateFile film_mp4 images_2MiB =
    (false,
     DDUpload.call
       (DDUpload.onError film_mp4
          "The file film.mp4 is too large (maximum size is 2.00MB). Your file is 2.86MB.")
       images_2MiB)
  ∧ DDUpload.validateFile letter_pdf images_2MiB =
      (false,
       DDUpload.call
         (DDUpload.onError letter_pdf "The file letter.pdf is not a permitted file type.")
         images_2MiB)
  ∧ DDUpload.validateFile letter_pdf any_type_2MiB = (true, any_type_2MiB).
Proof.
  split; [| split].
  - apply (C4_validateFile_order film_mp4 images_2MiB); reflexivity.
  - apply (C4_validateFile_order letter_pdf images_2MiB); [| decided | decided].
    intros [_ Hsize]. discriminate Hsize.
  - apply (C4_validateFile_order letter_pdf any_type_2MiB).
    + intros [_ Hsize]. discriminate Hsize.
    + right. decided.
Defined.

Lemma C5_valid_file_accepted_witness :
  DDUpload.calls (DDUpload.handleFiles [photo_png; letter_pdf] images_only) =
    [DDUpload.onChanged photo_png].
Proof.
  apply (C5_valid_file_accepted photo_png [letter_pdf] images_only).
  - right. reflexivity.
  - left. decided.
Defined.

Lemma C6_too_large_reported_witness :
  ∃ limit actual message,
    DDUpload.validateFile film_mp4 any_type_2MiB =
      (false, DDUpload.call (DDUpload.onError film_mp4 message) any_type_2MiB)
    ∧ DDUpload.calls (DDUpload.handleFiles [film_mp4] any_type_2MiB) =
        [DDUpload.onError film_mp4 message]
    ∧ message = "The file film.mp4 is too large (maximum size is "
                  +:+ DDUpload.fixed2 limit +:+ "MB). Your file is "
                  +:+ DDUpload.fixed2 actual +:+ "MB.".
Proof.
  destruct (C6_too_large_reported film_mp4 [] any_type_2MiB)
    as (limit & actual & message & Hvalid & Hcalls & Hmessage & _);
    [reflexivity | reflexivity |].
  exists limit, actual, message. split; [exact Hvalid |]. split; [exact Hcalls |].
  exact Hmessage.
Defined.


Lemma C9_rejected_file_resets_witness :
  ∃ message,
    DDUpload.calls (DDUpload.handleFiles [letter_pdf] images_only) =
      [DDUpload.onError letter_pdf message]
    ∧ DDUpload.fileInput_files (DDUpload.handleFiles [letter_pdf] images_only) = [].
Proof.
  destruct (C9_rejected_file_resets letter_pdf [] images_only)
    as (message & _ & Hcalls & Hfiles & _); [reflexivity |].
  exists message. split; [exact Hcalls | exact Hfiles].
Defined.


End Witnesses.

(** * Further properties of the code *)

(** ** More facts about the string functions *)

Section MoreStringFacts.
Import Str Php.

Lemma chars_inj s t : chars s = chars t → s = t.
Proof. intros Heq. by rewrite <- (of_chars_chars s), <- (of_chars_chars t), Heq. Qed.

Lemma take_while_app_all {A} (p : A → bool) l1 l2 :
  Forall (λ x, p x = true) l1 → take_while p (l1 ++ l2) = l1 ++ take_while p l2.
Proof. induction 1 as [|x l Hx _ IH]; simpl; [done | by rewrite Hx, IH]. Qed.

Lemma split_last_dot_app stem ext :
  Forall (λ c, is_dot c = false) (chars ext) →
  split_last_dot (stem +:+ "." +:+ ext) = Some (stem, ext).
Proof.
  intros Hext. apply split_last_dot_None in Hext.
  induction stem as [|c stem IH].
  - change ("" +:+ "." +:+ ext) with (String "." ext). simpl. by rewrite Hext.
  - change (String c stem +:+ "." +:+ ext) with (String c (stem +:+ "." +:+ ext)).
    simpl. by rewrite IH.
Qed.

(** The base name of a path that ends in a non-empty piece without a
    slash ends in that piece. *)
Lemma basename_app_plain s t :
  t ≠ "" →
  Forall (λ c, is_slash c = false) (chars t) →
  ∃ stem, basename (s +:+ t) = stem +:+ t
          ∧ Forall (λ c, is_slash c = false) (chars stem).
Proof.
  intros Hne Ht.
  exists (of_chars (reverse (take_while (λ c, negb (is_slash c)) (reverse (chars s))))).
  split.
  - unfold basename. rewrite chars_app, reverse_app.
    assert (Forall (λ c, negb (is_slash c) = true) (reverse (chars t))) as Hrev.
    { apply Forall_reverse. eapply Forall_impl; [exact Ht |].
      intros c Hc. simpl. by rewrite Hc. }
    assert (drop_while is_slash (reverse (chars t) ++ reverse (chars s)) =
              reverse (chars t) ++ reverse (chars s)) as ->.
    { destruct (reverse (chars t)) as [|c l] eqn:Hl.
      - apply (f_equal reverse) in Hl. rewrite reverse_involutive in Hl.
        destruct t; [done | discriminate Hl].
      - apply Forall_cons in Hrev as [Hc _]. simpl.
        by apply negb_true_iff in Hc as ->. }
    rewrite take_while_app_all by done.
    rewrite reverse_app, reverse_involutive.
    apply chars_inj. by rewrite chars_app, !chars_of_chars.
  - rewrite chars_of_chars. apply Forall_reverse.
    eapply Forall_impl; [apply take_while_holds |].
    intros c Hc. by apply negb_true_iff.
Qed.

(** The extension [pathinfo] finds has neither a slash nor a dot. *)
Lemma extension_plain path ext :
  pathinfo path !! "extension" = Some ext →
  Forall (λ c, is_slash c = false) (chars ext)
  ∧ Forall (λ c, is_dot c = false) (chars ext)
  ∧ pathinfo_extension path = ext.
Proof.
  rewrite pathinfo_lookup_extension. unfold pathinfo_extension.
  pose proof (basename_no_slash path) as Hbase.
  destruct (split_last_dot (basename path)) as [[stem e]|] eqn:Hsplit; [| done].
  intros [= <-]. apply split_last_dot_Some in Hsplit as [Heq Hdot].
  rewrite Heq, !chars_app in Hbase.
  apply Forall_app in Hbase as [_ Hbase]. by apply Forall_app in Hbase as [_ ?].
Qed.

Lemma pathinfo_extension_app stem ext :
  Forall (λ c, is_slash c = false) (chars ext) →
  Forall (λ c, is_dot c = false) (chars ext) →
  pathinfo_extension (stem +:+ "." +:+ ext) = ext.
Proof.
  intros Hslash Hdot.
  destruct (basename_app_plain stem ("." +:+ ext)) as (stem' & Heq & _).
  { by destruct ext. }
  { rewrite chars_app. apply Forall_app. split; [by repeat constructor | done]. }
  unfold pathinfo_extension. rewrite Heq. by rewrite split_last_dot_app.
Qed.

(** One piece when the separator does not occur. *)
Lemma split_plain sep s :
  Forall (λ c, Ascii.eqb c sep = false) (chars s) → Str.split sep s = [s].
Proof.
  induction s as [|c s IH]; simpl; [done |].
  intros H. apply Forall_cons in H as [Hc Hs]. by rewrite Hc, IH.
Qed.


End MoreStringFacts.

(** ** The endpoint: rejections, stored names and batches *)

Section EndpointExtras.
Import Str Php Upload.


Lemma chars_nil s : chars s = [] → s = "".
Proof. by destruct s. Qed.

(** A name that ends in a dot and a non-empty extension without a dot
    is none of the names that stand for a directory. *)
Lemma dotted_name_proper stem ext :
  ext ≠ "" →
  Forall (λ c, is_dot c = false) (chars ext) →
  stem +:+ "." +:+ ext ≠ "" ∧ stem +:+ "." +:+ ext ≠ "." ∧ stem +:+ "." +:+ ext ≠ "..".
Proof.
  intros Hne Hdot.
  assert (∀ l, chars (stem +:+ "." +:+ ext) = l →
            l ≠ [] ∧ l ≠ ["."%char] ∧ l ≠ ["."%char; "."%char]) as Hchars.
  { intros l <-. rewrite !chars_app. simpl.
    destruct (chars stem) as [|a [|b rest]]; simpl.
    - split; [done |]. split.
      + intros [= Hnil]. by apply chars_nil in Hnil.
      + intros [= Hone]. rewrite Hone in Hdot. by apply Forall_cons in Hdot as [? _].
    - split; [done |]. split; [done |].
      intros [= _ Hnil]. by apply chars_nil in Hnil.
    - split; [done |]. split; [done |]. by destruct rest. }
  destruct (Hchars _ eq_refl) as (H0 & H1 & H2).
  split; [| split]; intros Heq; rewrite Heq in *; done.
Qed.

Lemma split_app_sep sep s t :
  Forall (λ c, Ascii.eqb c sep = false) (chars s) →
  Str.split sep (s +:+ String sep t) = s :: Str.split sep t.
Proof.
  induction s as [|c s IH]; intros Hs.
  - change ("" +:+ String sep t) with (String sep t). simpl.
    by rewrite Ascii.eqb_refl.
  - apply Forall_cons in Hs as [Hc Hs].
    change (String c s +:+ String sep t) with (String c (s +:+ String sep t)).
    simpl. by rewrite Hc, IH.
Qed.

(** A file directly below the upload directory. *)
Lemma plain_name_in_upload_dir n :
  Forall (λ c, is_slash c = false) (chars n) →
  n ≠ "" → n ≠ "." → n ≠ ".." →
  Path.strictly_inside uploadDir (uploadDir +:+ n) = true.
Proof.
  intros Hslash H0 H1 H2. unfold Path.strictly_inside, Path.resolve.
  replace (Path.walk [] (Str.split "/" uploadDir)) with (Some ["uploads"])
    by (by vm_compute).
  change (uploadDir +:+ n) with ("uploads" +:+ String "/" n).
  rewrite split_app_sep by (by vm_compute; repeat constructor).
  rewrite (split_plain "/" n) by done.
  cbn [Path.walk].
  rewrite (bool_decide_eq_false_2 ("uploads" = "")) by done.
  rewrite (bool_decide_eq_false_2 ("uploads" = ".")) by done.
  rewrite (bool_decide_eq_false_2 ("uploads" = "..")) by done.
  rewrite (bool_decide_eq_false_2 (n = "")) by done.
  rewrite (bool_decide_eq_false_2 (n = ".")) by done.
  rewrite (bool_decide_eq_false_2 (n = "..")) by done.
  cbn [orb].
  rewrite bool_decide_eq_true_2 by (by exists [n]).
  by rewrite bool_decide_eq_false_2.
Qed.

Section OnAnyFileSystem.
Context {World : Type} `{!Platform World}.

(** X1.  A file that fails one of the three checks of [uploadFile]: the
    checks are made in the order error, type, size, and the first that
    fails decides the message; the file system is left as it was, no
    warning is raised, and the message is a failure line that depends
    neither on the desired name nor on the file system. *)
Theorem X1_rejected_upload_changes_nothing (w : World) file newFileName :
  error file ≠ UPLOAD_ERR_OK ∨ type file ∉ allowedFileTypes ∨ size file > maxFileSize →
  world (uploadFile w file newFileName) = w
  ∧ warnings (uploadFile w file newFileName) = []
  ∧ failure_line (message (uploadFile w file newFileName)) = true
  ∧ success_line (message (uploadFile w file newFileName)) = false
  ∧ (∀ (w' : World) newFileName',
       message (uploadFile w' file newFileName') = message (uploadFile w file newFileName))
  ∧ (error file ≠ UPLOAD_ERR_OK →
     message (uploadFile w file newFileName) =
       "There was an error uploading the file: " +:+ pretty (error file))
  ∧ (error file = UPLOAD_ERR_OK → type file ∉ allowedFileTypes →
     message (uploadFile w file newFileName) = "File type not allowed: " +:+ type file)
  ∧ (error file = UPLOAD_ERR_OK → type file ∈ allowedFileTypes →
     size file > maxFileSize →
     message (uploadFile w file newFileName) = "File is too large: " +:+ name file).
Proof.
  intros Hrejected. unfold uploadFile.
  destruct (Z.eqb_spec (error file) UPLOAD_ERR_OK) as [Herr | Herr]; simpl.
  2: { repeat split; try done. unfold failure_line. cbn [message]. by rewrite prefix_app. }
  destruct (in_array (type file) allowedFileTypes) eqn:Htype; simpl.
  2: { apply bool_decide_eq_false in Htype.
       repeat split; try done. unfold failure_line. cbn [message].
       by rewrite (prefix_app "File type not allowed: "), !orb_true_r. }
  apply in_array_true in Htype.
  destruct Hrejected as [? | [? | Hsize]]; [done | done |].
  replace (size file >? maxFileSize) with true by (symmetry; lia).
  repeat split; try done. unfold failure_line. cbn [message].
  by rewrite (prefix_app "File is too large: "), !orb_true_r.
Qed.

(** X6.  The line of a file that passes the three checks has no markup
    character, whatever the desired name and whether or not the move
    succeeds: the only text of the client in it went through
    [htmlspecialchars]. *)
Theorem X6_line_of_accepted_file_is_escaped (w : World) file newFileName :
  error file = UPLOAD_ERR_OK →
  type file ∈ allowedFileTypes →
  size file ≤ maxFileSize →
  markup_free (message (uploadFile w file newFileName)) = true.
Proof.
  intros Herr Htype Hsize. rewrite uploadFile_checked by done. cbn [message].
  destruct (move_uploaded_file _ _ _).1; [| done].
  unfold markup_free. rewrite forallb_app_chars.
  apply andb_true_iff. split; [done |]. apply htmlspecialchars_markup_free.
Qed.

(** X7.  A file whose name field is missing from the form data: reading
    [$_POST] raises the warning for that key and the desired name is
    empty, so the file is stored under a name made of a dot and the
    original extension only. *)
Theorem X7_missing_name_field (w : World) (POST : gmap string string) key file :
  POST !! str_replace "upload-container-" "file_name_" key = None →
  postedName POST key = ""
  ∧ (collectMessages POST w [(key, file)]).1.1 = [message (uploadFile w file "")]
  ∧ (collectMessages POST w [(key, file)]).1.2 =
      UndefinedArrayKey (str_replace "upload-container-" "file_name_" key)
        :: warnings (uploadFile w file "")
  ∧ uploadFilePath file "" =
      "uploads/." +:+ strval (pathinfo (name file) !! "extension").
Proof.
  intros Hmissing.
  assert (postedName POST key = "") as Hname.
  { unfold postedName. by rewrite array_read_lookup, Hmissing. }
  split; [done |].
  rewrite collectMessages_cons, Hname. cbv zeta. cbn [collectMessages fst snd].
  rewrite array_read_warning, Hmissing. split; [done |]. split.
  { by rewrite app_nil_r. }
  unfold uploadFilePath. rewrite finalFileName_eq.
  generalize (pathinfo (name file) !! "extension"). intros ext. by vm_compute.
Qed.



End OnAnyFileSystem.

End EndpointExtras.

(** ** The endpoint: the stored name *)

Section StoredNameExtras.
Import Str Php Upload.

(** X2.  The original extension always wins: when the original name has
    an extension, the stored name ends in a dot and that extension for
    every desired name, and [pathinfo] reads that extension back from
    the stored name. *)
Theorem X2_original_extension_wins file ext newFileName :
  pathinfo (name file) !! "extension" = Some ext →
  (∃ stem, finalFileName file newFileName = stem +:+ "." +:+ ext)
  ∧ pathinfo_extension (finalFileName file newFileName) = ext
  ∧ pathinfo (finalFileName file newFileName) !! "extension" = Some ext.
Proof.
  intros Hext.
  destruct (finalFileName_extension_wins file ext newFileName Hext) as [stem Hstem].
  destruct (extension_plain _ _ Hext) as (Hslash & Hdot & _).
  split; [by exists stem |].
  rewrite Hstem. split; [by apply pathinfo_extension_app |].
  rewrite pathinfo_lookup_extension.
  destruct (basename_app_plain stem ("." +:+ ext)) as (stem' & -> & _).
  { by destruct ext. }
  { rewrite chars_app. apply Forall_app. split; [by repeat constructor | done]. }
  by rewrite split_last_dot_app.
Qed.

(** X3.  A desired name with an extension (one that [empty] does not
    take for none) cannot leave the upload directory: when the original
    name has a non-empty extension, the stored name has no slash and the
    path of the file lies directly below the upload directory, whatever
    directories the desired name goes through. *)
Theorem X3_name_with_extension_is_confined file ext newFileName :
  pathinfo (name file) !! "extension" = Some ext →
  ext ≠ "" →
  empty (pathinfo_extension newFileName) = false →
  Forall (λ c, is_slash c = false) (chars (finalFileName file newFileName))
  ∧ Path.resolve (uploadFilePath file newFileName) =
      Some [finalFileName file newFileName; "uploads"]
  ∧ Path.strictly_inside uploadDir (uploadFilePath file newFileName) = true.
Proof.
  intros Hext Hne Hempty.
  pose proof (finalFileName_no_slash file newFileName Hempty) as Hslash.
  destruct (finalFileName_extension_wins file ext newFileName Hext) as [stem Hstem].
  destruct (extension_plain _ _ Hext) as (_ & Hdot & _).
  destruct (dotted_name_proper stem ext Hne Hdot) as (H0 & H1 & H2).
  rewrite <- Hstem in H0, H1, H2.
  split; [done |]. split; [| by apply plain_name_in_upload_dir].
  unfold uploadFilePath, Path.resolve.
  change (uploadDir +:+ finalFileName file newFileName)
    with ("uploads" +:+ String "/" (finalFileName file newFileName)).
  rewrite split_app_sep by (by vm_compute; repeat constructor).
  rewrite (split_plain "/" (finalFileName file newFileName)) by done.
  cbn [Path.walk].
  rewrite (bool_decide_eq_false_2 ("uploads" = "")) by done.
  rewrite (bool_decide_eq_false_2 ("uploads" = ".")) by done.
  rewrite (bool_decide_eq_false_2 ("uploads" = "..")) by done.
  rewrite (bool_decide_eq_false_2 (finalFileName file newFileName = "")) by done.
  rewrite (bool_decide_eq_false_2 (finalFileName file newFileName = ".")) by done.
  by rewrite (bool_decide_eq_false_2 (finalFileName file newFileName = "..")) by done.
Qed.

(** X4.  For a desired name with an extension only the base name
    counts: the directories in front of it change nothing, so desired
    names in different directories are stored under one name. *)
Theorem X4_directories_of_desired_name_are_dropped file newFileName :
  empty (pathinfo_extension newFileName) = false →
  finalFileName file newFileName = finalFileName file (basename newFileName)
  ∧ ∀ other, basename other = basename newFileName →
             finalFileName file other = finalFileName file newFileName.
Proof.
  intros Hempty.
  assert (∀ other, basename other = basename newFileName →
            finalFileName file other = finalFileName file newFileName) as Hsame.
  { intros other Hbase. rewrite !finalFileName_eq. unfold resolveFileName.
    assert (pathinfo_extension other = pathinfo_extension newFileName) as Hsame.
    { unfold pathinfo_extension. by rewrite Hbase. }
    by rewrite Hsame, Hempty, Hbase. }
  split; [| done]. symmetry. apply Hsame, basename_idem.
Qed.

(** X5.  A desired name that is the original name, as the demonstration
    page fills it in: with an original extension that [empty] does not
    take for none the file is stored under the base name of its original
    name; with the extension ["0"] or an empty one (a name that ends in
    a dot) the extension is appended a second time. *)
Theorem X5_unedited_name file ext :
  pathinfo (name file) !! "extension" = Some ext →
  (empty ext = false → finalFileName file (name file) = basename (name file))
  ∧ (empty ext = true → finalFileName file (name file) = name file +:+ "." +:+ ext).
Proof.
  intros Hext. destruct (extension_plain _ _ Hext) as (_ & _ & Hsame).
  split; intros Hempty.
  - apply finalFileName_keeps; by rewrite Hsame.
  - apply finalFileName_appends; [done | by rewrite Hsame].
Qed.

Lemma str_replace_skip search replace p rest :
  str_replace_from search replace (String.length p) (p +:+ rest) =
    str_replace_from search replace O rest.
Proof.
  induction p as [|c p IH]; [done |].
  change (String c p +:+ rest) with (String c (p +:+ rest)). simpl. apply IH.
Qed.

Lemma str_replace_occurrence search replace rest :
  search ≠ "" →
  str_replace search replace (search +:+ rest) =
    replace +:+ str_replace search replace rest.
Proof.
  intros Hne. unfold str_replace. rewrite !decide_False by done.
  destruct search as [|c search]; [done |].
  change (String c search +:+ rest) with (String c (search +:+ rest)).
  cbn [str_replace_from].
  change (String c (search +:+ rest)) with (String c search +:+ rest).
  rewrite prefix_app. cbn [String.length Nat.pred]. by rewrite str_replace_skip.
Qed.

Lemma str_replace_absent search replace rest c0 s0 :
  search = String c0 s0 →
  Forall (λ c, Ascii.eqb c0 c = false) (chars rest) →
  str_replace search replace rest = rest.
Proof.
  intros -> Hrest. unfold str_replace. rewrite decide_False by done.
  induction rest as [|c rest IH]; [done |].
  apply Forall_cons in Hrest as [Hc Hrest].
  cbn [str_replace_from String.prefix].
  destruct (ascii_dec c0 c) as [-> |]; [by rewrite Ascii.eqb_refl in Hc |].
  by rewrite IH.
Qed.

(** X8.  The pairing of a file with its name field: the file input
    takes the id of its drop zone as its name, and for a drop zone
    [upload-container-N] the script reads the desired name from the
    field [file_name_N] (for an [N] without the letter u, such as a
    number). *)
Theorem X8_file_field_and_name_field (POST : gmap string string) n o :
  Forall (λ c, Ascii.eqb "u" c = false) (chars n) →
  let key := DDUpload.input_name (DDUpload.setupFileInput ("upload-container-" +:+ n) o) in
  str_replace "upload-container-" "file_name_" key = "file_name_" +:+ n
  ∧ postedName POST key = strval (POST !! ("file_name_" +:+ n)).
Proof.
  intros Hn key. subst key. cbn [DDUpload.input_name DDUpload.setupFileInput].
  assert (str_replace "upload-container-" "file_name_" ("upload-container-" +:+ n) =
            "file_name_" +:+ n) as Hreplace.
  { rewrite str_replace_occurrence by done.
    by rewrite (str_replace_absent _ _ n "u" "pload-container-"). }
  split; [done |]. unfold postedName. by rewrite Hreplace, array_read_lookup.
Qed.

End StoredNameExtras.

(** ** The widget: events, callbacks and previews *)

Section WidgetExtras.
Import DDUpload Trace.

(** The two answers of [validateFile]. *)
Lemma validateFile_cases file w :
  validateFile file w = (true, w)
  ∨ ∃ message,
      validateFile file w = (false, call (onError file message) w)
      ∧ (message = tooLargeMessage (options w) file ∨ message = notPermittedMessage file).
Proof.
  unfold validateFile.
  destruct (_ && _); [right; eexists; by eauto |].
  destruct (_ && _); [right; eexists; by eauto | by left].
Qed.

Lemma verdict_options w w' file :
  options w = options w' → verdict w file = verdict w' file.
Proof.
  intros Heq. unfold verdict, validateFile. rewrite Heq.
  destruct (_ && _); [done |]. by destruct (_ && _).
Qed.

Lemma justified_options w w' c : options w = options w' → justified w c → justified w' c.
Proof.
  intros Heq. destruct c as [file | file message]; simpl.
  - by rewrite (verdict_options w w').
  - by rewrite (verdict_options w w'), Heq.
Qed.

(** A non-empty selection makes one call, and a justified one. *)
Lemma handleFiles_call file others w :
  ∃ c, calls (handleFiles (file :: others) w) = calls w ++ [c] ∧ justified w c.
Proof.
  unfold handleFiles.
  destruct (validateFile_cases file w) as [Hvalid | (message & Hvalid & Hmessage)].
  - exists (onChanged file). rewrite Hvalid. cbn [call calls].
    rewrite displayFile_calls. split; [done |]. simpl. unfold verdict. by rewrite Hvalid.
  - exists (onError file message). rewrite Hvalid. split; [done |].
    simpl. unfold verdict. by rewrite Hvalid.
Qed.

Lemma dispatch_call w e :
  ∃ new, calls (dispatch w e) = calls w ++ new
         ∧ Forall (justified w) new
         ∧ length new = (if selects e then 1 else 0)%nat.
Proof.
  destruct e as [| | | [|file others] | [|file others]];
    try (exists []; by rewrite app_nil_r).
  - cbn [dispatch handleDrop].
    destruct (handleFiles_call file others
                (assignFilesToInput (file :: others) (set_dragover false w)))
      as (c & Hcalls & Hc).
    exists [c]. split; [done |]. split; [| done].
    constructor; [| done]. by eapply justified_options; [| exact Hc].
  - cbn [dispatch]. cbv zeta. cbn [fileInput_files set_files].
    destruct (handleFiles_call file others (set_files (file :: others) w))
      as (c & Hcalls & Hc).
    exists [c]. split; [done |]. split; [| done].
    constructor; [| done]. by eapply justified_options; [| exact Hc].
Qed.

Lemma run_cons w e events : run w (e :: events) = run (dispatch w e) events.
Proof. done. Qed.

Lemma run_calls w events :
  ∃ new, calls (run w events) = calls w ++ new
         ∧ Forall (justified w) new
         ∧ length new = length (filter (λ e, selects e = true) events).
Proof.
  revert w. induction events as [|e events IH]; intros w.
  { exists []. by rewrite app_nil_r. }
  rewrite run_cons.
  destruct (dispatch_call w e) as (new1 & Hcalls1 & Hjust1 & Hlen1).
  destruct (IH (dispatch w e)) as (new2 & Hcalls2 & Hjust2 & Hlen2).
  exists (new1 ++ new2). split; [by rewrite Hcalls2, Hcalls1, app_assoc |]. split.
  - apply Forall_app. split; [done |].
    eapply Forall_impl; [exact Hjust2 |].
    intros c. apply justified_options, dispatch_options.
  - rewrite length_app, Hlen1, Hlen2, filter_cons.
    destruct (selects e); by rewrite ?decide_True, ?decide_False by done.
Qed.

Lemma handleFiles_dragover files w :
  dropZone_dragover (handleFiles files w) = dropZone_dragover w.
Proof.
  destruct files as [|file others]; [done |]. unfold handleFiles.
  destruct (validateFile_cases file w) as [-> | (message & -> & _)]; [| done].
  unfold displayFile. by destruct (String.prefix _ _).
Qed.

(** X10.  The highlight of the drop zone: dragging over sets it and
    leaving clears it, and neither touches what is shown, the input's
    files or the callbacks; a drop always clears it, whatever was
    dropped and whether it was accepted; a change of the file input
    leaves it as it was. *)
Theorem X10_drop_zone_highlight (w : Widget) :
  (dropZone_dragover (dispatch w DragOver) = true
   ∧ display (dispatch w DragOver) = display w
   ∧ fileInput_files (dispatch w DragOver) = fileInput_files w
   ∧ calls (dispatch w DragOver) = calls w)
  ∧ (dropZone_dragover (dispatch w DragLeave) = false
     ∧ display (dispatch w DragLeave) = display w
     ∧ fileInput_files (dispatch w DragLeave) = fileInput_files w
     ∧ calls (dispatch w DragLeave) = calls w)
  ∧ (∀ files, dropZone_dragover (dispatch w (Drop files)) = false)
  ∧ (∀ files, dropZone_dragover (dispatch w (Change files)) = dropZone_dragover w).
Proof.
  split; [done |]. split; [done |]. split; intros files.
  - change (dispatch w (Drop files))
      with (handleFiles files (assignFilesToInput files (set_dragover false w))).
    by rewrite handleFiles_dragover.
  - change (dispatch w (Change files)) with (handleFiles files (set_files files w)).
    by rewrite handleFiles_dragover.
Qed.

Lemma addItems_drop files i todo items :
  (i + todo = length files)%nat →
  addItems files i todo items = items ++ drop i files.
Proof.
  revert i items. induction todo as [|todo IH]; intros i items Hlen.
  - simpl. rewrite drop_ge by lia. by rewrite app_nil_r.
  - simpl. destruct (files !! i) as [file|] eqn:Hfile.
    + rewrite IH by lia. rewrite <- app_assoc. simpl.
      by rewrite (drop_S _ _ _ Hfile).
    + apply lookup_ge_None in Hfile. lia.
Qed.

(** X11.  The fallback of [assignFilesToInput], which copies the files
    one by one into a new [DataTransfer], puts the same list of files
    into the input as the direct assignment, in the same order. *)
Theorem X11_fallback_assigns_the_same_files (files : list File) (w : Widget) :
  addItems files 0 (length files) [] = files
  ∧ assignFilesToInput_fallback files w = assignFilesToInput files w.
Proof.
  assert (addItems files 0 (length files) [] = files) as Hitems.
  { by rewrite addItems_drop by done. }
  split; [done |]. unfold assignFilesToInput_fallback, assignFilesToInput.
  by rewrite Hitems.
Qed.

(** X12.  Every event that hands a non-empty list of files to the
    widget (a drop or a change of the input) makes exactly one call of a
    callback, and no other event makes any: after any sequence of events
    the number of calls has grown by the number of such events. *)
Theorem X12_one_callback_per_selection (w : Widget) (events : list Event) :
  length (calls (run w events)) =
    (length (calls w) + length (filter (λ e, selects e = true) events))%nat.
Proof.
  destruct (run_calls w events) as (new & -> & _ & <-). apply length_app.
Qed.

(** X13.  The callbacks agree with the validation: whatever the events,
    every call the widget adds is [onChanged] with a file that
    [validateFile] accepts, or [onError] with a file that it rejects and
    one of its two messages; earlier calls are kept, in order. *)
Theorem X13_callbacks_follow_validation (w : Widget) (events : list Event) :
  ∃ new, calls (run w events) = calls w ++ new ∧ Forall (justified w) new.
Proof.
  destruct (run_calls w events) as (new & Hcalls & Hjust & _). by exists new.
Qed.

End WidgetExtras.

Section PreviewExtras.
Import DDUpload Trace.

Lemma handleFiles_objectURLs file others w :
  objectURLs (handleFiles (file :: others) w) =
    objectURLs w
      ++ (if verdict w file && String.prefix "image/" (type file) then [file] else []).
Proof.
  unfold handleFiles, verdict.
  destruct (validateFile_cases file w) as [-> | (message & -> & _)]; simpl.
  - unfold displayFile. destruct (String.prefix _ _); [done | by rewrite app_nil_r].
  - by rewrite app_nil_r.
Qed.

Lemma dispatch_objectURLs w e : objectURLs w `prefix_of` objectURLs (dispatch w e).
Proof.
  destruct e as [| | | [|file others] | [|file others]]; try done.
  - change (dispatch w (Drop (file :: others)))
      with (handleFiles (file :: others)
              (assignFilesToInput (file :: others) (set_dragover false w))).
    rewrite handleFiles_objectURLs. by eexists.
  - change (dispatch w (Change (file :: others)))
      with (handleFiles (file :: others) (set_files (file :: others) w)).
    rewrite handleFiles_objectURLs. by eexists.
Qed.

(** X14.  Object URLs are made and never released: a selection adds one
    URL, for the selected file, exactly when the file is accepted and
    its type starts with [image/], and after any sequence of events the
    URLs made before are all still there, in order. *)
Theorem X14_object_urls_are_never_released (w : Widget) :
  (∀ file others,
     objectURLs (handleFiles (file :: others) w) =
       objectURLs w
         ++ (if verdict w file && String.prefix "image/" (type file) then [file] else []))
  ∧ (∀ events, objectURLs w `prefix_of` objectURLs (run w events)).
Proof.
  split; [intros; apply handleFiles_objectURLs |].
  intros events. revert w. induction events as [|e events IH]; intros w; [done |].
  rewrite run_cons. etrans; [apply dispatch_objectURLs | apply IH].
Qed.

(** X15.  The answer of [validateFile] depends on the maximum size and
    the list of allowed types only: widgets that agree on the two give
    the same answer for every file ([allowCamera] plays no part), and a
    widget gives the same answer for a file at any point of its life. *)
Theorem X15_verdict_depends_on_limit_and_types (w w' : Widget) (file : File) :
  maxFileSize (options w) = maxFileSize (options w') →
  allowedFileTypes (options w) = allowedFileTypes (options w') →
  verdict w file = verdict w' file
  ∧ ∀ events, verdict (run w events) file = verdict w' file.
Proof.
  intros Hmax Htypes.
  assert (verdict w file = verdict w' file) as Hsame.
  { unfold verdict, validateFile. rewrite Hmax, Htypes.
    destruct (_ && _); [done |]. by destruct (_ && _). }
  split; [done |]. intros events. rewrite <- Hsame.
  apply verdict_options, run_options.
Qed.



(** X17.  An accepted file whose type starts with [image/]: the
    placeholder is hidden and the background is a new object URL, which
    stands for that file, shown as a cover; the label is not touched. *)
Theorem X17_preview_of_image (file : File) (others : list File) (w : Widget) :
  verdict w file = true →
  String.prefix "image/" (type file) = true →
  ∃ id,
    display (handleFiles (file :: others) w) =
      {| placeholder_visible := false;
         preview_label := previewElement_textContent w;
         preview_image := ObjectURL id |}
    ∧ objectURLs w !! id = None
    ∧ objectURLs (handleFiles (file :: others) w) !! id = Some file
    ∧ backgroundSize (handleFiles (file :: others) w) = "cover".
Proof.
  intros Hvalid Himage.
  assert (validateFile file w = (true, w)) as Hv.
  { revert Hvalid. unfold verdict.
    by destruct (validateFile_cases file w) as [-> | (message & -> & _)]. }
  exists (length (objectURLs w)).
  rewrite handleFiles_objectURLs, Hvalid, Himage.
  assert (handleFiles (file :: others) w = call (onChanged file) (displayFile file w))
    as ->.
  { unfold handleFiles. by rewrite Hv. }
  unfold displayFile. rewrite Himage.
  split; [done |]. split; [by apply lookup_ge_None |]. split; [| done].
  by rewrite lookup_app_r, Nat.sub_diag.
Qed.

(** The answer of [validateFile] in another state of the same widget. *)
Lemma validateFile_accepted_elsewhere file w w' :
  options w' = options w →
  validateFile file w = (true, w) → validateFile file w' = (true, w').
Proof.
  intros Ho. unfold validateFile. rewrite Ho.
  destruct (_ && _); [done |]. by destruct (_ && _).
Qed.

Lemma validateFile_rejected_elsewhere file w w' message :
  options w' = options w →
  validateFile file w = (false, call (onError file message) w) →
  validateFile file w' = (false, call (onError file message) w').
Proof.
  intros Ho. unfold validateFile. rewrite Ho.
  assert (∀ m, (false, call (onError file m) w) = (false, call (onError file message) w) →
               m = message) as Hsame.
  { intros m Heq. apply (f_equal (λ r, calls r.2)) in Heq. simpl in Heq.
    apply app_inv_head in Heq. by injection Heq. }
  destruct (_ && _); [by intros ->%Hsame |].
  destruct (_ && _); [by intros ->%Hsame | done].
Qed.

(** X18.  A drop of several files: the callbacks and what is shown are
    those of a drop of the first file alone, but the input keeps every
    dropped file when the first is accepted, and none when it is
    rejected. *)
Theorem X18_drop_of_several_files (file : File) (others : list File) (w : Widget) :
  calls (dispatch w (Drop (file :: others))) = calls (dispatch w (Drop [file]))
  ∧ display (dispatch w (Drop (file :: others))) = display (dispatch w (Drop [file]))
  ∧ fileInput_files (dispatch w (Drop (file :: others))) =
      (if verdict w file then file :: others else []).
Proof.
  change (dispatch w (Drop (file :: others)))
    with (handleFiles (file :: others)
            (assignFilesToInput (file :: others) (set_dragover false w))).
  change (dispatch w (Drop [file]))
    with (handleFiles [file] (assignFilesToInput [file] (set_dragover false w))).
  unfold handleFiles, verdict.
  destruct (validateFile_cases file w) as [Hv | (message & Hv & _)].
  - rewrite (validateFile_accepted_elsewhere file w
               (assignFilesToInput (file :: others) (set_dragover false w)) eq_refl Hv).
    rewrite (validateFile_accepted_elsewhere file w
               (assignFilesToInput [file] (set_dragover false w)) eq_refl Hv).
    rewrite Hv. cbn [fst].
    unfold displayFile. by destruct (String.prefix _ _).
  - rewrite (validateFile_rejected_elsewhere file w
               (assignFilesToInput (file :: others) (set_dragover false w))
               message eq_refl Hv).
    rewrite (validateFile_rejected_elsewhere file w
               (assignFilesToInput [file] (set_dragover false w)) message eq_refl Hv).
    by rewrite Hv.
Qed.

End PreviewExtras.

(** ** The demonstration page and the two programs together *)

Section DemoExtras.
Import DDUpload Trace Demo.

Lemma page_after_cons handler c cs page :
  page_after handler (c :: cs) page = page_after handler cs (deliver handler page c).
Proof. done. Qed.

(** The page after calls whose [onChanged] files are within 2 MiB. *)
Lemma page_after_small_files cs page :
  Forall (λ c, match c with onChanged file => size file ≤ 2097152 | _ => True end) cs →
  page_after onChanged_1 cs page =
    {| file_name_1 := from_option name (file_name_1 page) (last_changed cs);
       file_name_2 := file_name_2 page;
       alerts := alerts page ++ error_messages cs |}
  ∧ page_after onChanged_2 cs page =
      {| file_name_1 := file_name_1 page;
         file_name_2 := from_option name (file_name_2 page) (last_changed cs);
         alerts := alerts page ++ error_messages cs |}.
Proof.
  intros Hsmall. revert page.
  induction Hsmall as [|c cs Hc _ IH]; intros page.
  { simpl. rewrite app_nil_r. by destruct page. }
  rewrite !page_after_cons. destruct (IH (deliver onChanged_1 page c)) as [-> _].
  destruct (IH (deliver onChanged_2 page c)) as [_ ->].
  destruct c as [file | file message]; simpl.
  - unfold onChanged_1, onChanged_2, checkFileSize.
    replace (size file >? 2 * 1024 * 1024) with false by (symmetry; lia).
    simpl. by destruct (last_changed cs).
  - rewrite <- !app_assoc. simpl. by destruct (last_changed cs).
Qed.

Lemma justified_2MiB w c :
  maxFileSize (options w) = 2097152 →
  justified w c →
  match c with onChanged file => size file ≤ 2097152 | _ => True end.
Proof.
  intros Hmax. destruct c as [file | file message]; [| done].
  simpl. unfold verdict, validateFile. rewrite Hmax.
  destruct (Z.gtb_spec (size file) 2097152); [done | lia].
Qed.

Lemma justified_message w cs :
  Forall (justified w) cs →
  Forall (λ message, String.prefix "The file " message = true) (error_messages cs).
Proof.
  induction 1 as [|c cs Hc _ IH]; [constructor |].
  destruct c as [file | file message]; [done |]. simpl.
  constructor; [| done]. destruct Hc as [_ [-> | ->]]; apply prefix_app.
Qed.

(** X19.  On the demonstration page both widgets have the maximum the
    handlers check again, so [checkFileSize] never fails inside
    [onChanged]: after any sequence of events the alerts are the
    messages of the [onError] calls, in order, the size alert of the
    page is not among them, and the widget's text field holds the name
    of the last accepted file (it is empty when there was none); the
    other field is not touched. *)
Theorem X19_demo_page_after_events (events : list Event) :
  (page_after onChanged_1 (calls (run widget_1 events)) blank =
     {| file_name_1 := from_option name "" (last_changed (calls (run widget_1 events)));
        file_name_2 := "";
        alerts := error_messages (calls (run widget_1 events)) |}
   ∧ "File size exceeds the limit of 2MB."
       ∉ alerts (page_after onChanged_1 (calls (run widget_1 events)) blank))
  ∧ (page_after onChanged_2 (calls (run widget_2 events)) blank =
       {| file_name_1 := "";
          file_name_2 := from_option name "" (last_changed (calls (run widget_2 events)));
          alerts := error_messages (calls (run widget_2 events)) |}
     ∧ "File size exceeds the limit of 2MB."
         ∉ alerts (page_after onChanged_2 (calls (run widget_2 events)) blank)).
Proof.
  assert (∀ w, calls w = [] → maxFileSize (options w) = 2097152 →
            (page_after onChanged_1 (calls (run w events)) blank =
               {| file_name_1 := from_option name "" (last_changed (calls (run w events)));
                  file_name_2 := "";
                  alerts := error_messages (calls (run w events)) |}
             ∧ page_after onChanged_2 (calls (run w events)) blank =
                 {| file_name_1 := "";
                    file_name_2 :=
                      from_option name "" (last_changed (calls (run w events)));
                    alerts := error_messages (calls (run w events)) |})
            ∧ "File size exceeds the limit of 2MB."
                ∉ error_messages (calls (run w events))) as Hany.
  { intros w Hcalls Hmax.
    destruct (run_calls w events) as (new & Hnew & Hjust & _).
    rewrite Hcalls in Hnew. simpl in Hnew. rewrite Hnew. split.
    - apply page_after_small_files.
      eapply Forall_impl; [exact Hjust |]. intros c. by apply justified_2MiB.
    - intros Hin. apply justified_message in Hjust.
      rewrite Forall_forall in Hjust. by apply Hjust in Hin. }
  destruct (Hany widget_1 eq_refl eq_refl) as [[Hpage1 _] Hnot1].
  destruct (Hany widget_2 eq_refl eq_refl) as [[_ Hpage2] Hnot2].
  split; (split; [done |]); [by rewrite Hpage1 | by rewrite Hpage2].
Qed.

Section OnAnyFileSystem.
Context {World : Type} `{!Upload.Platform World}.


End OnAnyFileSystem.

End DemoExtras.

(** ** The further properties at sample inputs *)

Section MoreWitnesses.
Import Str Php Samples Cases.

Ltac decided := apply (bool_decide_unpack _); vm_compute; exact I.

Lemma X1_rejected_upload_changes_nothing_witness :
  Upload.world (Upload.uploadFile Upload.empty_disk partial_upload "cut") =
    Upload.empty_disk
  ∧ Upload.message (Upload.uploadFile Upload.empty_disk partial_upload "cut") =
      "There was an error uploading the file: 3".
Proof.
  destruct (X1_rejected_upload_changes_nothing Upload.empty_disk partial_upload "cut")
    as (Hworld & _ & _ & _ & _ & Hmessage & _); [left; discriminate |].
  split; [exact Hworld |]. apply Hmessage. discriminate.
Defined.

Lemma X2_original_extension_wins_witness :
  pathinfo_extension (Upload.finalFileName scan_pdf "../../etc/passwd") = "pdf".
Proof.
  apply (X2_original_extension_wins scan_pdf "pdf" "../../etc/passwd"). reflexivity.
Defined.

Lemma X3_name_with_extension_is_confined_witness :
  Path.strictly_inside Upload.uploadDir
    (Upload.uploadFilePath scan_pdf "../../etc/shadow.txt") = true.
Proof.
  apply (X3_name_with_extension_is_confined scan_pdf "pdf" "../../etc/shadow.txt");
    [reflexivity | discriminate | reflexivity].
Defined.

Lemma X4_directories_of_desired_name_are_dropped_witness :
  Upload.finalFileName scan_pdf "2024/drafts/report.txt" =
    Upload.finalFileName scan_pdf (basename "2024/drafts/report.txt").
Proof.
  destruct (X4_directories_of_desired_name_are_dropped scan_pdf "2024/drafts/report.txt")
    as [Hbase _]; [reflexivity |].
  exact Hbase.
Defined.

Lemma X5_unedited_name_witness :
  Upload.finalFileName scan_pdf (Upload.name scan_pdf) = basename (Upload.name scan_pdf)
  ∧ Upload.finalFileName notes_0 (Upload.name notes_0) = Upload.name notes_0 +:+ ".0".
Proof.
  split.
  - apply (X5_unedited_name scan_pdf "pdf"); reflexivity.
  - apply (X5_unedited_name notes_0 "0"); reflexivity.
Defined.

Lemma X6_line_of_accepted_file_is_escaped_witness :
  Upload.markup_free
    (Upload.message (Upload.uploadFile Upload.empty_disk scan_pdf "<b>.txt")) = true.
Proof.
  apply (X6_line_of_accepted_file_is_escaped Upload.empty_disk scan_pdf "<b>.txt");
    [reflexivity | decided | discriminate].
Defined.

Lemma X7_missing_name_field_witness :
  Upload.postedName one_field "upload-container-2" = ""
  ∧ Upload.uploadFilePath scan_pdf "" =
      "uploads/." +:+ strval (pathinfo (Upload.name scan_pdf) !! "extension").
Proof.
  destruct (X7_missing_name_field Upload.empty_disk one_field "upload-container-2" scan_pdf)
    as (Hname & _ & _ & Hpath); [reflexivity |].
  split; [exact Hname | exact Hpath].
Defined.

Lemma X8_file_field_and_name_field_witness :
  Upload.postedName one_field
    (DDUpload.input_name
       (DDUpload.setupFileInput ("upload-container-" +:+ "1")
          (DDUpload.options images_only))) =
    strval (one_field !! ("file_name_" +:+ "1")).
Proof.
  apply (X8_file_field_and_name_field one_field "1" (DDUpload.options images_only)).
  repeat constructor.
Defined.

Lemma X15_verdict_depends_on_limit_and_types_witness :
  Trace.verdict camera_2MiB film_mp4 = Trace.verdict images_2MiB film_mp4.
Proof.
  apply (X15_verdict_depends_on_limit_and_types camera_2MiB images_2MiB film_mp4);
    reflexivity.
Defined.


Lemma X17_preview_of_image_witness :
  ∃ id,
    DDUpload.objectURLs (DDUpload.handleFiles [photo_png] images_only) !! id =
      Some photo_png.
Proof.
  destruct (X17_preview_of_image photo_png [] images_only)
    as (id & _ & _ & Hurl & _); [reflexivity | reflexivity |].
  exists id. exact Hurl.
Defined.


End MoreWitnesses.
